(** * fast_video_converter: the scan / convert / resume pipeline

    A shallow embedding of [src/fast_video_converter.py] (class
    [VideoConverter]) and the properties of its scanner, its executor and
    its resume state.

    - Paths follow pathlib's pure POSIX paths: an anchor and a list of parts;
      [name], [stem] and [suffix] are computed as pathlib does (Python 3.4
      to 3.13: the last dot of the name, when it is neither its first nor its
      last character).
    - [str.lower] is modelled on ASCII letters.
    - The file system is a finite map from paths to regular files (case
      sensitive, as on POSIX); a file carries its size and what ffprobe
      answers on its content.
    - [self.state] is a finite map from keys to status strings, next to the
      content of [conversion_state.json] on disk.
    - Python code runs in a state-and-exception monad over this world; every
      external action is also logged in a trace, so that order can be
      stated.
    - The worker pool of [run] is modelled by running the jobs one after
      the other, in worklist order. *)

From Stdlib Require Import ZArith QArith Ascii String List Bool Lia.
From stdpp Require Import base option gmap strings list fin_maps.

Set Warnings "-register-all".
Local Open Scope Z_scope.

(* ===================================================================== *)
(** ** Strings *)

Module Str.

(** [str.lower], on ASCII. *)
Definition ascii_lower (c : ascii) : ascii :=
  let n := N_of_ascii c in
  if ((65 <=? n) && (n <=? 90))%N then ascii_of_N (n + 32) else c.

Fixpoint lower (s : string) : string :=
  match s with
  | EmptyString => EmptyString
  | String c r => String (ascii_lower c) (lower r)
  end.

(** [s.startswith(p)] *)
Definition startswith (s p : string) : bool := String.prefix p s.

(** [name.rfind('.')]: [None] stands for Python's -1. *)
Fixpoint rfind_dot (s : string) : option nat :=
  match s with
  | EmptyString => None
  | String c r =>
      match rfind_dot r with
      | Some i => Some (S i)
      | None => if Ascii.eqb c "."%char then Some 0%nat else None
      end
  end.

(** [sep.join(parts)] *)
Fixpoint join (sep : string) (l : list string) : string :=
  match l with
  | [] => ""
  | [x] => x
  | x :: r => x +:+ sep +:+ join sep r
  end.

End Str.

(* ===================================================================== *)
(** ** Paths (pathlib) *)

Record Path := MkPath { anchored : bool; parts : list string }.

Global Instance Path_eq_dec : EqDecision Path.
Proof. solve_decision. Defined.

Global Instance Path_countable : Countable Path.
Proof.
  refine (inj_countable' (fun p => (anchored p, parts p))
                         (fun t => MkPath t.1 t.2) _).
  by intros [].
Defined.

Module PathLib.

(** [str(p)] *)
Definition str (p : Path) : string :=
  if anchored p then "/" +:+ Str.join "/" (parts p)
  else match parts p with
       | [] => "."
       | _ => Str.join "/" (parts p)
       end.

(** [p.name]: the last part, or the empty string. *)
Definition name (p : Path) : string := List.last (parts p) "".

(** The index of the dot that starts the suffix, when the name has one:
    [i = name.rfind('.')] with [0 < i < len(name) - 1]. *)
Definition suffix_index (n : string) : option nat :=
  match Str.rfind_dot n with
  | Some i =>
      if ((0 <? i) && (i <? String.length n - 1))%nat then Some i else None
  | None => None
  end.

Definition suffix_of (n : string) : string :=
  match suffix_index n with
  | Some i => String.substring i (String.length n - i) n
  | None => ""
  end.

Definition stem_of (n : string) : string :=
  match suffix_index n with
  | Some i => String.substring 0 i n
  | None => n
  end.

(** [p.suffix] and [p.stem] *)
Definition suffix (p : Path) : string := suffix_of (name p).
Definition stem (p : Path) : string := stem_of (name p).

(** [p.parent / n], for a file name [n] (one part). *)
Definition sibling (p : Path) (n : string) : Path :=
  MkPath (anchored p) (List.removelast (parts p) ++ [n]).

(** [root / rel], for a relative path given by its parts. *)
Definition joinpath (root : Path) (rel : list string) : Path :=
  MkPath (anchored root) (parts root ++ rel).

(** [root.rglob('*')]: every entry below [root], as the operating system
    lists them; [listing] holds the entries relative to [root]. *)
Definition rglob (root : Path) (listing : list (list string)) : list Path :=
  List.map (joinpath root) listing.

(** [p.is_absolute()] *)
Definition is_absolute (p : Path) : bool := anchored p.

(** [p.absolute()]: a relative path is joined to the working directory. *)
Definition absolute (cwd p : Path) : Path :=
  if anchored p then p else MkPath (anchored cwd) (parts cwd ++ parts p).

End PathLib.

(* ===================================================================== *)
(** ** Configuration *)

Definition TARGET_WIDTH : Z := 176.
Definition TARGET_HEIGHT : Z := 144.

Definition VIDEO_EXTENSIONS : list string :=
  [".mp4"; ".avi"; ".mkv"; ".mov"; ".wmv"; ".flv";
   ".webm"; ".m4v"; ".mpeg"; ".mpg"; ".3gp"; ".ts"; ".vob"].

Definition in_VIDEO_EXTENSIONS (s : string) : bool :=
  bool_decide (s ∈ VIDEO_EXTENSIONS).

(* ===================================================================== *)
(** ** Python values and exceptions *)

(** A float, as far as comparison with an integer goes: Python compares a
    finite float and an integer exactly, as rationals. *)
Inductive pyfloat :=
| FNaN
| FInf (negative : bool)
| FFinite (q : Q).

(** What [json.loads] builds.  [JNull] is Python's [None]; a [JDict] lists
    its pairs in document order, the last one winning for a repeated key. *)
Inductive json :=
| JNull
| JBool (b : bool)
| JInt (z : Z)
| JFloat (f : pyfloat)
| JStr (s : string)
| JList (l : list json)
| JDict (d : list (string * json)).

(** The exceptions that can occur; all of them derive from [Exception]. *)
Inductive exn :=
| TimeoutExpired
| OSError
| FileNotFoundError
| JSONDecodeError
| TypeError
| AttributeError
| KeyError
| IndexError
| ZeroDivisionError
| FFmpegFailed (code : Z)       (* "FFmpeg failed with exit code {code}" *)
| OutputNotCreated              (* "Output file not created" *)
| OutputTooSmall (size : N).    (* "Output file too small ({size} bytes)" *)

Inductive result (A : Type) :=
| Val (a : A)
| Exc (e : exn).
Arguments Val {A} a.
Arguments Exc {A} e.

Global Instance result_ret : MRet result := fun A a => Val a.
Global Instance result_bind : MBind result := fun A B f r =>
  match r with
  | Val a => f a
  | Exc e => Exc e
  end.

Module Py.

Fixpoint dict_get (k : string) (d : list (string * json)) : option json :=
  match d with
  | [] => None
  | (k', v) :: r =>
      match dict_get k r with
      | Some x => Some x
      | None => if String.eqb k k' then Some v else None
      end
  end.

Definition is_str (k : string) (v : json) : bool :=
  match v with
  | JStr s => String.eqb s k
  | _ => false
  end.

(** [k in v], for a string [k] *)
Definition contains (k : string) (v : json) : result bool :=
  match v with
  | JDict d => Val (bool_decide (is_Some (dict_get k d)))
  | JList l => Val (existsb (is_str k) l)
  | JStr s => Val (bool_decide (is_Some (String.index 0 k s)))
  | _ => Exc TypeError
  end.

(** [v[k]], for a string [k] *)
Definition getitem (k : string) (v : json) : result json :=
  match v with
  | JDict d => match dict_get k d with
               | Some x => Val x
               | None => Exc KeyError
               end
  | _ => Exc TypeError
  end.

(** [len(v)] *)
Definition len (v : json) : result nat :=
  match v with
  | JDict d => Val (length (remove_dups d.*1))
  | JList l => Val (length l)
  | JStr s => Val (String.length s)
  | _ => Exc TypeError
  end.

(** [v[0]]; the keys of a dictionary read from JSON are strings, never 0. *)
Definition getitem0 (v : json) : result json :=
  match v with
  | JList (x :: _) => Val x
  | JList [] => Exc IndexError
  | JStr (String c _) => Val (JStr (String c ""))
  | JStr EmptyString => Exc IndexError
  | JDict _ => Exc KeyError
  | _ => Exc TypeError
  end.

(** [v.get(k)] *)
Definition get (k : string) (v : json) : result json :=
  match v with
  | JDict d => Val (default JNull (dict_get k d))
  | _ => Exc AttributeError
  end.

(** [v == n], for an integer [n]; never raises. *)
Definition eq_int (v : json) (n : Z) : bool :=
  match v with
  | JInt z => z =? n
  | JBool b => Z.b2z b =? n
  | JFloat (FFinite q) => Qeq_bool q (inject_Z n)
  | _ => false
  end.

(** [v > n], for an integer [n]; unordered types raise [TypeError]. *)
Definition gt_int (v : json) (n : Z) : result bool :=
  match v with
  | JInt z => Val (n <? z)
  | JBool b => Val (n <? Z.b2z b)
  | JFloat FNaN => Val false
  | JFloat (FInf neg) => Val (negb neg)
  | JFloat (FFinite q) => Val (negb (Qle_bool q (inject_Z n)))
  | _ => Exc TypeError
  end.

End Py.

(* ===================================================================== *)
(** ** The world: files, external tools, resume state *)

(** What [subprocess.run] gives: an exception ([TimeoutExpired], [OSError]),
    or a completed process.  The captured output is represented by what
    [json.loads] makes of it: [None] when it raises [JSONDecodeError]. *)
Inductive proc :=
| ProcRaises (e : exn)
| ProcCompleted (returncode : Z) (stdout : option json).

(** A regular file: its size in bytes and ffprobe's answer on its content. *)
Record file := MkFile { f_size : N; f_probe : proc }.

(** One run of the encoder: how the process ends, and the file it leaves at
    its output path, if it writes one. *)
Record enc_run := MkEnc { enc_proc : proc; enc_written : option file }.

Inductive event :=
| EvProbe (p : Path)
| EvEncode (src out : Path)
| EvUnlink (p : Path)
| EvRename (src dst : Path)
| EvSet (key status : string)
| EvSave (m : gmap string string).

Record world := MkWorld {
  fs : gmap Path file;             (* the regular files *)
  state : gmap string string;      (* self.state *)
  disk : gmap string string;       (* conversion_state.json *)
  trace : list event               (* what has been done, oldest first *)
}.

Definition M (A : Type) : Type := world -> result A * world.

Global Instance M_ret : MRet M := fun A a w => (Val a, w).
Global Instance M_bind : MBind M := fun A B f m w =>
  match m w with
  | (Val a, w') => f a w'
  | (Exc e, w') => (Exc e, w')
  end.

Definition raise {A} (e : exn) : M A := fun w => (Exc e, w).

Definition lift {A} (r : result A) : M A := fun w => (r, w).

(** [try: body / except Exception as e: handler e] *)
Definition try_except {A} (body : M A) (handler : exn -> M A) : M A :=
  fun w =>
    match body w with
    | (Val a, w') => (Val a, w')
    | (Exc e, w') => handler e w'
    end.

Definition log (ev : event) : M unit := fun w =>
  (Val tt, MkWorld (fs w) (state w) (disk w) (trace w ++ [ev])).

Definition get_fs : M (gmap Path file) := fun w => (Val (fs w), w).
Definition put_fs (f : gmap Path file) : M unit := fun w =>
  (Val tt, MkWorld f (state w) (disk w) (trace w)).
Definition get_state : M (gmap string string) := fun w => (Val (state w), w).

Module Os.

(** [p.exists()] and [p.is_file()]; only regular files are in [fs]. *)
Definition path_exists (p : Path) : M bool :=
  f ← get_fs; mret (bool_decide (is_Some (f !! p))).
Definition is_file (p : Path) : M bool := path_exists p.

(** [p.stat().st_size] *)
Definition stat_size (p : Path) : M N :=
  f ← get_fs;
  match f !! p with
  | Some x => mret (f_size x)
  | None => raise FileNotFoundError
  end.

(** [p.unlink()] *)
Definition unlink (p : Path) : M unit :=
  f ← get_fs;
  match f !! p with
  | Some _ => put_fs (delete p f);; log (EvUnlink p)
  | None => raise FileNotFoundError
  end.

(** [src.rename(dst)]: replaces [dst] when it exists. *)
Definition rename (src dst : Path) : M unit :=
  f ← get_fs;
  match f !! src with
  | Some x => put_fs (<[dst := x]> (delete src f));; log (EvRename src dst)
  | None => raise FileNotFoundError
  end.

(** [subprocess.run(['ffprobe', ..., str(p)], timeout=10)]: on a path
    with no file, ffprobe exits with status 1. *)
Definition run_ffprobe (p : Path) : M proc :=
  f ← get_fs;
  log (EvProbe p);;
  mret (match f !! p with
        | Some x => f_probe x
        | None => ProcCompleted 1 None
        end).

End Os.

(* ===================================================================== *)
(** ** class VideoConverter *)

(** The fields of [self] that never change; [self.state] is in the world. *)
Record converter := MkConverter {
  folder_path : Path;
  max_workers : nat;
  keep_originals : bool;
  dry_run : bool
}.

(** [self.state[key] = status] *)
Definition set_state (key status : string) : M unit := fun w =>
  (Val tt, MkWorld (fs w) (<[key := status]> (state w)) (disk w)
                   (trace w ++ [EvSet key status])).

(** [save_state]: the whole map is written to the state file.  A write that
    fails is only reported by the source (the exception is caught); such a
    failure is not modelled. *)
Definition save_state : M unit := fun w =>
  (Val tt, MkWorld (fs w) (state w) (state w) (trace w ++ [EvSave (state w)])).

(** [json.loads(result.stdout)] *)
Definition json_loads (stdout : option json) : result json :=
  match stdout with
  | Some data => Val data
  | None => Exc JSONDecodeError
  end.

(** The body of [get_video_resolution] after [subprocess.run]. *)
Definition read_resolution (r : proc) : result (option (json * json)) :=
  match r with
  | ProcRaises e => Exc e
  | ProcCompleted returncode stdout =>
      if negb (returncode =? 0) then Val None
      else
        data ← json_loads stdout;
        has ← Py.contains "streams" data;
        nonempty ← (if has : bool
                    then streams ← Py.getitem "streams" data;
                         n ← Py.len streams;
                         mret (0 <? n)%nat
                    else mret false);
        if nonempty : bool
        then streams ← Py.getitem "streams" data;
             stream ← Py.getitem0 streams;
             width ← Py.get "width" stream;
             height ← Py.get "height" stream;
             mret (Some (width, height))
        else mret None
  end.

Definition get_video_resolution (file_path : Path) : M (option (json * json)) :=
  try_except
    (r ← Os.run_ffprobe file_path; lift (read_resolution r))
    (fun _ => mret None).

(** The local variables of [scan_videos]. *)
Record scan_vars := MkScan {
  files_to_convert : list (Path * json * json);
  skipped : nat;
  already_done : nat
}.

Definition is_3gp (file_path : Path) : bool :=
  String.eqb (Str.lower (PathLib.suffix file_path)) ".3gp".

(** One turn of the loop of [scan_videos]. *)
Definition scan_file (file_path : Path) (v : scan_vars) : M scan_vars :=
  isf ← Os.is_file file_path;
  if negb isf then mret v
  else if negb (in_VIDEO_EXTENSIONS (Str.lower (PathLib.suffix file_path)))
  then mret v
  else if Str.startswith (PathLib.name file_path) "temp_" then mret v
  else
    let state_key := Str.lower (PathLib.str file_path) in
    st ← get_state;
    if bool_decide (st !! state_key = Some "converted")
    then mret (MkScan (files_to_convert v) (skipped v) (S (already_done v)))
    else
      resolution ← get_video_resolution file_path;
      match resolution with
      | None => mret (MkScan (files_to_convert v) (S (skipped v)) (already_done v))
      | Some (width, height) =>
          if is_3gp file_path && Py.eq_int width TARGET_WIDTH
             && Py.eq_int height TARGET_HEIGHT
          then
            set_state state_key "skipped";;
            mret (MkScan (files_to_convert v) (S (skipped v)) (already_done v))
          else
            wider ← lift (Py.gt_int width TARGET_WIDTH);
            larger ← (if wider : bool then mret true
                      else lift (Py.gt_int height TARGET_HEIGHT));
            if larger : bool
            then mret (MkScan (files_to_convert v ++ [(file_path, width, height)])
                              (skipped v) (already_done v))
            else if Py.eq_int width TARGET_WIDTH
                    && Py.eq_int height TARGET_HEIGHT
                    && negb (is_3gp file_path)
            then mret (MkScan (files_to_convert v ++ [(file_path, width, height)])
                              (skipped v) (already_done v))
            else
              set_state state_key "skipped";;
              mret (MkScan (files_to_convert v) (S (skipped v)) (already_done v))
      end.

Fixpoint scan_loop (entries : list Path) (v : scan_vars) : M scan_vars :=
  match entries with
  | [] => mret v
  | file_path :: rest => v' ← scan_file file_path v; scan_loop rest v'
  end.

(** [scan_videos], over the entries that [rglob] yields. *)
Definition scan_entries (entries : list Path) : M (list (Path * json * json)) :=
  v ← scan_loop entries (MkScan [] 0 0);
  save_state;;
  mret (files_to_convert v).

Definition scan_videos (self : converter) (listing : list (list string))
  : M (list (Path * json * json)) :=
  scan_entries (PathLib.rglob (folder_path self) listing).

(** The encoder, as the environment provides it: from the files present,
    the input path and the output path to one run. *)
Definition encoder := gmap Path file -> Path -> Path -> enc_run.

(** [subprocess.run(['ffmpeg', '-i', src, ..., '-y', out], timeout=300)]:
    the encoder touches its output path only. *)
Definition run_ffmpeg (ffmpeg : encoder) (src out : Path) : M Z :=
  f ← get_fs;
  log (EvEncode src out);;
  match enc_written (ffmpeg f src out) with
  | Some x => put_fs (<[out := x]> f)
  | None => mret tt
  end;;
  match enc_proc (ffmpeg f src out) with
  | ProcRaises e => raise e
  | ProcCompleted returncode _ => mret returncode
  end.

(** [((original_size - new_size) / original_size) * 100], as the exact
    rational.  The source computes it in floating point and only prints it;
    the division by zero raises in both. *)
Definition savings (original_size new_size : N) : result Q :=
  if (original_size =? 0)%N then Exc ZeroDivisionError
  else Val (((inject_Z (Z.of_N original_size - Z.of_N new_size))
             / inject_Z (Z.of_N original_size)) * inject_Z 100)%Q.

Inductive status := success | error.

(** The message of a result: the formatted text is kept as its fields (the
    elapsed wall-clock time is left out). *)
Inductive message :=
| MsgConverted (name : string) (saved : Q) (original_kept : bool)
| MsgFailed (name : string) (reason : exn).

Definition temp_output (file_path : Path) : Path :=
  PathLib.sibling file_path ("temp_" +:+ PathLib.stem file_path +:+ ".3gp").
Definition final_output (file_path : Path) : Path :=
  PathLib.sibling file_path (PathLib.stem file_path +:+ ".3gp").
Definition state_key (file_path : Path) : string :=
  Str.lower (PathLib.str file_path).

(** The [try] block of [convert_video]. *)
Definition convert_try (self : converter) (ffmpeg : encoder)
    (file_path : Path) : M (status * message) :=
  returncode ← run_ffmpeg ffmpeg file_path (temp_output file_path);
  if negb (returncode =? 0) then raise (FFmpegFailed returncode)
  else
    made ← Os.path_exists (temp_output file_path);
    if negb made then raise OutputNotCreated
    else
      temp_size ← Os.stat_size (temp_output file_path);
      if (temp_size <? 1024)%N then raise (OutputTooSmall temp_size)
      else
        present ← Os.path_exists (final_output file_path);
        (if present : bool then Os.unlink (final_output file_path)
         else mret tt);;
        Os.rename (temp_output file_path) (final_output file_path);;
        original_size ← Os.stat_size file_path;
        new_size ← Os.stat_size (final_output file_path);
        saved ← lift (savings original_size new_size);
        status_msg ←
          (if negb (keep_originals self)
           then Os.unlink file_path;;
                mret (MsgConverted (PathLib.name file_path) saved false)
           else mret (MsgConverted (PathLib.name file_path) saved true));
        set_state (state_key file_path) "converted";;
        save_state;;
        mret (success, status_msg).

(** The [except Exception as e] block of [convert_video]. *)
Definition convert_except (file_path : Path) (e : exn) : M (status * message) :=
  left_over ← Os.path_exists (temp_output file_path);
  (if left_over : bool then Os.unlink (temp_output file_path) else mret tt);;
  set_state (state_key file_path) "failed";;
  save_state;;
  mret (error, MsgFailed (PathLib.name file_path) e).

Definition convert_video (self : converter) (ffmpeg : encoder)
    (file_info : Path * json * json) : M (status * message) :=
  let '(file_path, orig_width, orig_height) := file_info in
  try_except (convert_try self ffmpeg file_path) (convert_except file_path).

(** The jobs of the pool, one after the other in worklist order: this is
    how a pool of one worker ([max_workers] = 1) runs them.  The interleaving
    of several workers is not modelled. *)
Fixpoint convert_all (self : converter) (ffmpeg : encoder)
    (files : list (Path * json * json)) : M (list (status * message)) :=
  match files with
  | [] => mret []
  | file_info :: rest =>
      r ← convert_video self ffmpeg file_info;
      rs ← convert_all self ffmpeg rest;
      mret (r :: rs)
  end.

(** [run], after [check_ffmpeg]: [None] when nothing is converted (empty
    worklist, or dry run), else the results of the jobs, which are run as
    [convert_all] does. *)
Definition run (self : converter) (ffmpeg : encoder)
    (listing : list (list string)) : M (option (list (status * message))) :=
  files ← scan_videos self listing;
  match files with
  | [] => mret None
  | _ => if dry_run self then mret None
         else rs ← convert_all self ffmpeg files; mret (Some rs)
  end.

(* ===================================================================== *)
(** ** Auxiliary definitions for the statements *)

(** What ffprobe answers on a path in a world. *)
Definition ffprobe_answer (w : world) (p : Path) : proc :=
  match fs w !! p with
  | Some x => f_probe x
  | None => ProcCompleted 1 None
  end.

(** The world after one more action. *)
Definition logged (w : world) (evs : list event) : world :=
  MkWorld (fs w) (state w) (disk w) (trace w ++ evs).

(** The cases of the probe contract, as the specification names them. *)
Inductive probe_case :=
| ExitNonzero
| Raised
| Malformed
| NoVideoStream
| FirstStream (stream : list (string * json)).

Definition classify_probe (r : proc) : probe_case :=
  match r with
  | ProcRaises _ => Raised
  | ProcCompleted returncode stdout =>
      if returncode =? 0 then
        match stdout with
        | None => Malformed
        | Some (JDict d) =>
            match Py.dict_get "streams" d with
            | None => NoVideoStream
            | Some (JList []) => NoVideoStream
            | Some (JList (JDict stream :: _)) => FirstStream stream
            | Some _ => Malformed
            end
        | Some _ => Malformed
        end
      else ExitNonzero
  end.

(** The contract of the probe, in the words of the specification. *)
Definition probe_contract (r : proc) : option (json * json) :=
  match classify_probe r with
  | FirstStream stream =>
      Some (default JNull (Py.dict_get "width" stream),
            default JNull (Py.dict_get "height" stream))
  | _ => None
  end.

(** The files after one run of the encoder. *)
Definition encoded (ffmpeg : encoder) (src out : Path) (f : gmap Path file)
  : gmap Path file :=
  match enc_written (ffmpeg f src out) with
  | Some x => <[out := x]> f
  | None => f
  end.

(** Why a job fails before anything is moved, in the order of the checks:
    the encoder raises (a timeout), exits nonzero, leaves no output, or
    leaves an output of less than 1024 bytes. *)
Definition encode_failure (ffmpeg : encoder) (p : Path) (f : gmap Path file)
  : option exn :=
  match enc_proc (ffmpeg f p (temp_output p)) with
  | ProcRaises e => Some e
  | ProcCompleted returncode _ =>
      if returncode =? 0 then
        match encoded ffmpeg p (temp_output p) f !! temp_output p with
        | None => Some OutputNotCreated
        | Some x =>
            if (f_size x <? 1024)%N then Some (OutputTooSmall (f_size x))
            else None
        end
      else Some (FFmpegFailed returncode)
  end.


(** The files once the output [x] of the encoder has been moved to the final
    path of [p]: what was at the final path is gone, and so is the temporary
    file. *)
Definition moved (ffmpeg : encoder) (p : Path) (x : file) (f : gmap Path file)
  : gmap Path file :=
  <[final_output p := x]>
    (delete (temp_output p)
       (delete (final_output p) (encoded ffmpeg p (temp_output p) f))).

(** The events of a successful job, in order. *)
Definition success_events (self : converter) (ffmpeg : encoder) (p : Path)
    (w : world) : list event :=
  [EvEncode p (temp_output p)]
  ++ (if bool_decide (is_Some (encoded ffmpeg p (temp_output p) (fs w)
                               !! final_output p))
      then [EvUnlink (final_output p)] else [])
  ++ [EvRename (temp_output p) (final_output p)]
  ++ (if keep_originals self then [] else [EvUnlink p])
  ++ [EvSet (state_key p) "converted";
      EvSave (<[state_key p := "converted"]> (state w))].

(** The events of a failed job, in order. *)
Definition failure_events (ffmpeg : encoder) (p : Path) (w : world)
  : list event :=
  [EvEncode p (temp_output p)]
  ++ (if bool_decide (is_Some (encoded ffmpeg p (temp_output p) (fs w)
                               !! temp_output p))
      then [EvUnlink (temp_output p)] else [])
  ++ [EvSet (state_key p) "failed";
      EvSave (<[state_key p := "failed"]> (state w))].

(** How a job fails before anything is moved, case by case. *)
Inductive job_failure (ffmpeg : encoder) (p : Path) (f : gmap Path file)
  : exn -> Prop :=
| fail_raised (e : exn) :
    enc_proc (ffmpeg f p (temp_output p)) = ProcRaises e ->
    job_failure ffmpeg p f e
| fail_exit_code (returncode : Z) (out : option json) :
    enc_proc (ffmpeg f p (temp_output p)) = ProcCompleted returncode out ->
    returncode <> 0 ->
    job_failure ffmpeg p f (FFmpegFailed returncode)
| fail_no_output (out : option json) :
    enc_proc (ffmpeg f p (temp_output p)) = ProcCompleted 0 out ->
    encoded ffmpeg p (temp_output p) f !! temp_output p = None ->
    job_failure ffmpeg p f OutputNotCreated
| fail_small_output (out : option json) (x : file) :
    enc_proc (ffmpeg f p (temp_output p)) = ProcCompleted 0 out ->
    encoded ffmpeg p (temp_output p) f !! temp_output p = Some x ->
    (f_size x < 1024)%N ->
    job_failure ffmpeg p f (OutputTooSmall (f_size x)).

(* ===================================================================== *)
(** ** Sample data *)

Module Sample.

(** ffprobe's answer for a video of [w] by [h] pixels. *)
Definition probe_answer (w h : Z) : proc :=
  ProcCompleted 0
    (Some (JDict [("streams",
                   JList [JDict [("width", JInt w); ("height", JInt h)]])])).

Definition video (w h : Z) (size : N) : file := MkFile size (probe_answer w h).

Definition root : Path := MkPath true ["videos"].
Definition big_mp4 : Path := MkPath true ["videos"; "big.mp4"].
Definition big_3gp : Path := MkPath true ["videos"; "clip.3gp"].
Definition small_avi : Path := MkPath true ["videos"; "small.avi"].
Definition tiny_avi : Path := MkPath true ["videos"; "tiny.avi"].

Definition files : gmap Path file :=
  <[big_mp4 := video 640 480 100000]>
    (<[big_3gp := video 352 288 50000]>
       (<[small_avi := video 120 90 3000]>
          (<[tiny_avi := video 96 72 2000]> ∅))).

Definition start : world := MkWorld files ∅ ∅ [].

(** An encoder that always succeeds, with a 2048-byte file at the target
    resolution. *)
Definition good_encoder : encoder := fun _ _ _ =>
  MkEnc (ProcCompleted 0 None) (Some (video 176 144 2048)).

(** An encoder that exits with status 1 and leaves a partial output. *)
Definition bad_encoder : encoder := fun _ _ _ =>
  MkEnc (ProcCompleted 1 None) (Some (MkFile 10 (ProcCompleted 1 None))).

Definition delete_originals : converter := MkConverter root 2 false false.
Definition keep_them : converter := MkConverter root 2 true false.

End Sample.

(* ===================================================================== *)
(** ** The scanner, case by case *)

(** The filters of the loop: a regular file, with a supported extension,
    whose name does not start with the temporary prefix. *)
Definition eligible (f : gmap Path file) (p : Path) : bool :=
  bool_decide (is_Some (f !! p))
  && in_VIDEO_EXTENSIONS (Str.lower (PathLib.suffix p))
  && negb (Str.startswith (PathLib.name p) "temp_").

Definition marked_converted (st : gmap string string) (p : Path) : bool :=
  bool_decide (st !! state_key p = Some "converted").

(** What the comparisons of the loop decide for a probed file. *)
Inductive decision := DSkip | DQueue | DCrash (e : exn).

Definition decide_resolution (target_container : bool) (width height : json)
  : decision :=
  if target_container && Py.eq_int width TARGET_WIDTH
     && Py.eq_int height TARGET_HEIGHT
  then DSkip
  else
    match Py.gt_int width TARGET_WIDTH with
    | Exc e => DCrash e
    | Val true => DQueue
    | Val false =>
        match Py.gt_int height TARGET_HEIGHT with
        | Exc e => DCrash e
        | Val true => DQueue
        | Val false =>
            if Py.eq_int width TARGET_WIDTH && Py.eq_int height TARGET_HEIGHT
               && negb target_container
            then DQueue else DSkip
        end
    end.

Definition count_skipped (v : scan_vars) : scan_vars :=
  MkScan (files_to_convert v) (S (skipped v)) (already_done v).
Definition count_done (v : scan_vars) : scan_vars :=
  MkScan (files_to_convert v) (skipped v) (S (already_done v)).
Definition enqueue (c : Path * json * json) (v : scan_vars) : scan_vars :=
  MkScan (files_to_convert v ++ [c]) (skipped v) (already_done v).

(** The world after a file has been probed and marked [skipped]. *)
Definition mark_skipped (p : Path) (w : world) : world :=
  MkWorld (fs w) (<[state_key p := "skipped"]> (state w)) (disk w)
          (trace w ++ [EvProbe p; EvSet (state_key p) "skipped"]).

(** One turn of the loop, as a case table. *)
Definition scan_file_cases (p : Path) (v : scan_vars) (w : world)
  : result scan_vars * world :=
  if negb (eligible (fs w) p) then (Val v, w)
  else if marked_converted (state w) p then (Val (count_done v), w)
  else
    match probe_contract (ffprobe_answer w p) with
    | None => (Val (count_skipped v), logged w [EvProbe p])
    | Some (width, height) =>
        match decide_resolution (is_3gp p) width height with
        | DSkip => (Val (count_skipped v), mark_skipped p w)
        | DQueue => (Val (enqueue (p, width, height) v), logged w [EvProbe p])
        | DCrash e => (Exc e, logged w [EvProbe p])
        end
    end.

(** The classification policy, in the words of the specification. *)
Inductive action := MarkSkipped | QueueForConversion.

Definition policy (target_container : bool) (width height : Z) : action :=
  if target_container && (width =? TARGET_WIDTH) && (height =? TARGET_HEIGHT)
  then MarkSkipped
  else if (TARGET_WIDTH <? width) || (TARGET_HEIGHT <? height)
  then QueueForConversion
  else if (width =? TARGET_WIDTH) && (height =? TARGET_HEIGHT)
  then QueueForConversion
  else MarkSkipped.

(* ===================================================================== *)
(** ** Reading traces *)

(** The events that touch the resume state. *)
Definition state_event (ev : event) : bool :=
  match ev with
  | EvSet _ _ | EvSave _ => true
  | _ => false
  end.

(** The keys written to [self.state], in order. *)
Definition keys_written (tr : list event) : list string :=
  omap (fun ev => match ev with EvSet k _ => Some k | _ => None end) tr.


Module Resume.

(** A second start: the big file has been converted by an earlier run, and
its original was kept. *)
Definition earlier : gmap string string := {["/videos/big.mp4" := "converted"]}.
Definition restart : world := MkWorld Sample.files earlier earlier [].
Definition listing : list (list string) :=
  [["big.mp4"]; ["clip.3gp"]; ["small.avi"]; ["tiny.avi"]; ["notes"]].

(** A file that ffprobe cannot read. *)
Definition broken_mkv : Path := MkPath true ["videos"; "broken.mkv"].
Definition broken : world :=
  MkWorld {[broken_mkv := MkFile 12 (ProcCompleted 1 None)]} ∅ ∅ [].

End Resume.

(** Whether every mutation of [self.state] in a trace is saved before the
next mutation, and before the end; [dirty] tells whether a mutation is
waiting to be saved. *)
Fixpoint persisted_each (dirty : bool) (tr : list event) : bool :=
  match tr with
  | [] => negb dirty
  | EvSet _ _ :: rest => negb dirty && persisted_each true rest
  | EvSave _ :: rest => persisted_each false rest
  | _ :: rest => persisted_each dirty rest
  end.

(** The number of saves in a trace. *)
Definition saves (tr : list event) : nat :=
  length (omap (fun ev => match ev with EvSave m => Some m | _ => None end) tr).

(** The key-normalisation claim as the specification states it: every key
written by a scan is the lower-cased absolute path of a scanned file, the
process running in directory [cwd]. *)
Definition keys_absolute (cwd : Path) (self : converter)
    (listing : list (list string)) (w : world) : Prop :=
  forall k : string,
    k ∈ keys_written (trace (scan_videos self listing w).2) ->
    exists p : Path,
      p ∈ PathLib.rglob (folder_path self) listing /\
      k = Str.lower (PathLib.str (PathLib.absolute cwd p)).

Module Relative.

(** The converter started in /home/user on the relative folder [videos]. *)
Definition cwd : Path := MkPath true ["home"; "user"].
Definition root : Path := MkPath false ["videos"].
Definition tiny_avi : Path := MkPath false ["videos"; "tiny.avi"].
Definition self : converter := MkConverter root 2 false false.
Definition listing : list (list string) := [["tiny.avi"]].
Definition start : world :=
  MkWorld {[tiny_avi := Sample.video 96 72 2000]} ∅ ∅ [].

End Relative.

(* ===================================================================== *)
(** ** Two runs in a row *)





(** The state file, as [load_state] finds it: absent, unreadable or not
JSON, or holding the map that a [save_state] wrote. *)
Inductive state_file :=
| NoStateFile
| BadStateFile
| StateFile (m : gmap string string).

(** [load_state]: the map of the file, or the empty one. *)
Definition load_state (f : state_file) : gmap string string :=
  match f with
  | StateFile m => m
  | NoStateFile | BadStateFile => ∅
  end.

(** The world as a later process finds it: [__init__] loads [self.state]
from the state file that the last [save_state] wrote. *)
Definition restart (w : world) : world :=
  MkWorld (fs w) (load_state (StateFile (disk w))) (disk w) (trace w).

Module Single.

(** A converter with one worker, which deletes originals. *)
Definition self : converter := MkConverter Sample.root 1 false false.

End Single.


(* ===================================================================== *)
(** ** Tactics *)

(** Unfold the monad and its primitive actions. *)
Ltac unfold_monad :=
  unfold mbind, mret, M_bind, M_ret, result_bind, result_ret,
    raise, lift, try_except, log, get_fs, put_fs, get_state,
    set_state, save_state in *.

(** Unfold the file-system actions. *)
Ltac unfold_os :=
  unfold Os.is_file, Os.path_exists, Os.stat_size, Os.unlink, Os.rename,
    Os.run_ffprobe in *.

(** Reduce the projections of a world. *)
Ltac world_simpl := cbn [fs state disk trace fst snd].

(* ===================================================================== *)
(** ** Further readings of results, traces and paths *)

(** The file name a result message is about. *)
Definition message_name (m : message) : string :=
  match m with
  | MsgConverted n _ _ => n
  | MsgFailed n _ => n
  end.

(** The events that touch the files. *)
Definition file_event (ev : event) : bool :=
  match ev with
  | EvEncode _ _ | EvUnlink _ | EvRename _ _ => true
  | _ => false
  end.

(** The directory of a path: its parts but the last. *)
Definition directory (p : Path) : bool * list string :=
  (anchored p, List.removelast (parts p)).

Module Collide.

(** Two files whose paths differ by case only, on a case-sensitive file
system. *)
Definition upper_mp4 : Path := MkPath true ["videos"; "CLIP.MP4"].
Definition lower_mp4 : Path := MkPath true ["videos"; "clip.mp4"].
Definition start : world :=
  MkWorld (<[upper_mp4 := Sample.video 640 480 90000]>
             {[lower_mp4 := Sample.video 320 240 40000]}) ∅ ∅ [].

End Collide.

Module Odd.

(** A file for which ffprobe lists a stream without dimensions, and an empty
file that the encoder accepts all the same. *)
Definition no_size : proc :=
  ProcCompleted 0 (Some (JDict [("streams", JList [JDict []])])).
Definition strange_mkv : Path := MkPath true ["videos"; "strange.mkv"].
Definition empty_mp4 : Path := MkPath true ["videos"; "empty.mp4"].
Definition start : world :=
  MkWorld (<[strange_mkv := MkFile 4000 no_size]>
             (<[Sample.tiny_avi := Sample.video 96 72 2000]>
                {[empty_mp4 := Sample.video 640 480 0]})) ∅ ∅ [].
Definition preview : converter := MkConverter Sample.root 2 false true.

End Odd.

(* ===================================================================== *)
(** ** The probe *)

Lemma read_resolution_contract (r : proc) :
  match read_resolution r with
  | Val v => v = probe_contract r
  | Exc _ => probe_contract r = None
  end.
Proof.
  unfold probe_contract, classify_probe, read_resolution.
  destruct r as [e | rc out]; [done |].
  destruct (rc =? 0); [| done]. cbn [negb].
  destruct out as [data |]; [| done].
  destruct data as [ | b | z | f | s | l | d]; try done.
  - (* a string: 'streams' in data may hold, data['streams'] raises *)
    cbn. by case_bool_decide.
  - (* a list *)
    cbn. by destruct (existsb _ l).
  - (* an object *)
    cbn. destruct (Py.dict_get "streams" d) as [streams |] eqn:Hs; cbn; [| done].
    rewrite ?Hs. cbn.
    destruct streams as [ | b | z | f | s | l | d']; cbn; try done.
    + destruct s as [| c s]; cbn; done.
    + destruct l as [| x l]; cbn; [done |].
      destruct x; cbn; done.
    + destruct (length (remove_dups d'.*1)); cbn; done.
Qed.

Lemma get_video_resolution_run (p : Path) (w : world) :
  get_video_resolution p w
  = (Val (probe_contract (ffprobe_answer w p)), logged w [EvProbe p]).
Proof.
  unfold get_video_resolution, ffprobe_answer, logged.
  unfold_os. unfold_monad. cbn.
  pose proof (read_resolution_contract
                (match fs w !! p with
                 | Some x => f_probe x
                 | None => ProcCompleted 1 None
                 end)) as H.
  destruct (read_resolution _) as [v | e]; cbn; by rewrite H.
Qed.

(** C8.  The probe never raises: it returns [None] when the prober exits
    nonzero, raises (a timeout), prints something that is not the expected
    JSON, or reports no video stream, and the (width, height) pair of the
    first stream otherwise. *)
Theorem get_video_resolution_contract (p : Path) (w : world) :
  exists v : option (json * json),
    get_video_resolution p w = (Val v, logged w [EvProbe p]) /\
    match classify_probe (ffprobe_answer w p) with
    | ExitNonzero | Raised | Malformed | NoVideoStream => v = None
    | FirstStream stream =>
        exists width height : json,
          Py.get "width" (JDict stream) = Val width /\
          Py.get "height" (JDict stream) = Val height /\
          v = Some (width, height)
    end.
Proof.
  exists (probe_contract (ffprobe_answer w p)). split.
  - apply get_video_resolution_run.
  - unfold probe_contract.
    destruct (classify_probe _); cbn; eauto.
Qed.

(* ===================================================================== *)
(** ** Names, stems and suffixes *)

Section Names.

Local Open Scope nat_scope.

Lemma str_app_cons (c : ascii) (a b : string) :
  String c a +:+ b = String c (a +:+ b).
Proof. reflexivity. Qed.

Lemma str_app_nil_r (a : string) : a +:+ "" = a.
Proof. induction a as [| c a IH]; [done |]. by rewrite str_app_cons, IH. Qed.

Lemma str_length_app (a b : string) :
  String.length (a +:+ b) = String.length a + String.length b.
Proof.
  induction a as [| c a IH]; [done |]. rewrite str_app_cons. cbn. by rewrite IH.
Qed.

Lemma substring_all (s : string) : String.substring 0 (String.length s) s = s.
Proof. induction s as [| c s IH]; cbn; [done | by rewrite IH]. Qed.

Lemma substring_split (s : string) (i : nat) :
  i <= String.length s ->
  String.substring 0 i s +:+ String.substring i (String.length s - i) s = s.
Proof.
  revert i. induction s as [| c s IH]; intros [| i] Hi; cbn in *; try lia.
  - done.
  - by rewrite substring_all.
  - rewrite str_app_cons. f_equal. apply IH. lia.
Qed.

Lemma substring_app_l (a b : string) :
  String.substring 0 (String.length a) (a +:+ b) = a.
Proof.
  induction a as [| c a IH]; cbn.
  - by destruct b.
  - rewrite str_app_cons. cbn. f_equal. apply IH.
Qed.

Lemma substring_app_r (a b : string) (m : nat) :
  String.substring (String.length a) m (a +:+ b) = String.substring 0 m b.
Proof.
  induction a as [| c a IH]; [done |].
  rewrite str_app_cons. cbn. apply IH.
Qed.

(** The last dot of a name that ends in [.3gp] is the dot of [.3gp]. *)
Lemma rfind_dot_3gp (a : string) :
  Str.rfind_dot (a +:+ ".3gp") = Some (String.length a).
Proof.
  induction a as [| c a IH]; [done |].
  rewrite str_app_cons. cbn. by rewrite IH.
Qed.

Lemma rfind_dot_bound (s : string) (i : nat) :
  Str.rfind_dot s = Some i -> i < String.length s.
Proof.
  revert i. induction s as [| c s IH]; intros i; cbn; [done |].
  destruct (Str.rfind_dot s) as [j |].
  - intros [= <-]. specialize (IH j eq_refl). lia.
  - destruct (Ascii.eqb c "."); intros [= <-]. lia.
Qed.

Lemma suffix_index_bound (n : string) (i : nat) :
  PathLib.suffix_index n = Some i -> 0 < i < String.length n.
Proof.
  unfold PathLib.suffix_index.
  destruct (Str.rfind_dot n) as [j |] eqn:Hj; [| done].
  apply rfind_dot_bound in Hj.
  destruct ((0 <? j) && (j <? String.length n - 1)) eqn:Hb; [| done].
  intros [= <-].
  apply andb_true_iff in Hb as [Hlo _]. apply Nat.ltb_lt in Hlo. lia.
Qed.

(** A name is its stem followed by its suffix. *)
Lemma stem_suffix (n : string) : PathLib.stem_of n +:+ PathLib.suffix_of n = n.
Proof.
  unfold PathLib.stem_of, PathLib.suffix_of.
  destruct (PathLib.suffix_index n) as [i |] eqn:Hi.
  - apply substring_split. apply suffix_index_bound in Hi. lia.
  - apply str_app_nil_r.
Qed.

Lemma suffix_index_3gp (a : string) :
  a <> "" -> PathLib.suffix_index (a +:+ ".3gp") = Some (String.length a).
Proof.
  intros Ha. unfold PathLib.suffix_index.
  rewrite rfind_dot_3gp, str_length_app.
  assert (0 < String.length a) as Hlen by (destruct a; [done | cbn; lia]).
  assert ((0 <? String.length a)
          && (String.length a <? String.length a + String.length ".3gp" - 1)
          = true) as ->; [| done].
  apply andb_true_iff. split; apply Nat.ltb_lt; cbn; lia.
Qed.

Lemma stem_of_3gp (a : string) : a <> "" -> PathLib.stem_of (a +:+ ".3gp") = a.
Proof.
  intros Ha. unfold PathLib.stem_of.
  rewrite suffix_index_3gp by done. apply substring_app_l.
Qed.

Lemma suffix_of_3gp (a : string) :
  a <> "" -> PathLib.suffix_of (a +:+ ".3gp") = ".3gp".
Proof.
  intros Ha. unfold PathLib.suffix_of.
  rewrite suffix_index_3gp by done.
  rewrite str_length_app, substring_app_r.
  replace (String.length a + String.length ".3gp" - String.length a) with 4
    by (cbn; lia).
  done.
Qed.

Lemma stem_nonempty (n : string) : n <> "" -> PathLib.stem_of n <> "".
Proof.
  intros Hn. unfold PathLib.stem_of.
  destruct (PathLib.suffix_index n) as [i |] eqn:Hi; [| done].
  apply suffix_index_bound in Hi.
  destruct i as [| i]; [lia |]. destruct n; [done |]. done.
Qed.

Lemma suffix_nonempty_name (n : string) : PathLib.suffix_of n <> "" -> n <> "".
Proof. by intros H ->. Qed.

(** The temporary name is never the name itself. *)
Lemma temp_name_fresh (n : string) :
  "temp_" +:+ PathLib.stem_of n +:+ ".3gp" <> n.
Proof.
  intros H.
  assert (PathLib.stem_of n = "temp_" +:+ PathLib.stem_of n) as Hs.
  { rewrite <- H at 1.
    change ("temp_" +:+ PathLib.stem_of n +:+ ".3gp")
      with (("temp_" +:+ PathLib.stem_of n) +:+ ".3gp").
    by apply stem_of_3gp. }
  apply (f_equal String.length) in Hs. rewrite str_length_app in Hs. cbn in Hs. lia.
Qed.

Lemma temp_name_not_final (s : string) : "temp_" +:+ s +:+ ".3gp" <> s +:+ ".3gp".
Proof.
  intros H. apply (f_equal String.length) in H.
  rewrite !str_length_app in H. cbn in H. lia.
Qed.

(** A name with suffix [.3gp] is its own final name. *)
Lemma final_name_3gp (n : string) :
  PathLib.suffix_of n = ".3gp" -> PathLib.stem_of n +:+ ".3gp" = n.
Proof. intros H. rewrite <- H. apply stem_suffix. Qed.

End Names.

(* ===================================================================== *)
(** ** Temporary and final output paths *)

Section OutputPaths.

Lemma name_sibling (p : Path) (n : string) :
  PathLib.name (PathLib.sibling p n) = n.
Proof. unfold PathLib.name, PathLib.sibling; cbn. apply last_last. Qed.

Lemma sibling_inj (p : Path) (a b : string) :
  PathLib.sibling p a = PathLib.sibling p b -> a = b.
Proof.
  intros H. apply (f_equal PathLib.name) in H. by rewrite !name_sibling in H.
Qed.

Lemma sibling_name (p : Path) :
  PathLib.name p <> "" -> PathLib.sibling p (PathLib.name p) = p.
Proof.
  destruct p as [a l]. unfold PathLib.sibling, PathLib.name; cbn. intros Hn.
  f_equal. symmetry. apply app_removelast_last. by intros ->.
Qed.

Lemma temp_output_fresh (p : Path) : temp_output p <> p.
Proof.
  intros H. apply (f_equal PathLib.name) in H.
  unfold temp_output in H. rewrite name_sibling in H.
  by apply temp_name_fresh in H.
Qed.

Lemma temp_output_not_final (p : Path) : temp_output p <> final_output p.
Proof.
  intros H. apply sibling_inj in H. by apply temp_name_not_final in H.
Qed.

(** A path whose suffix is [.3gp] is its own final output path. *)
Lemma final_output_3gp (p : Path) :
  PathLib.suffix p = ".3gp" -> final_output p = p.
Proof.
  intros H. unfold final_output, PathLib.stem.
  rewrite final_name_3gp by done.
  apply sibling_name. apply suffix_nonempty_name.
  unfold PathLib.suffix in H. by rewrite H.
Qed.

Lemma name_final_output (p : Path) :
  PathLib.name (final_output p) = PathLib.stem p +:+ ".3gp".
Proof. apply name_sibling. Qed.

(** The final output of a named file has the target container's suffix. *)
Lemma suffix_final_output (p : Path) :
  PathLib.name p <> "" -> PathLib.suffix (final_output p) = ".3gp".
Proof.
  intros Hn. unfold PathLib.suffix. rewrite name_final_output.
  apply suffix_of_3gp. by apply stem_nonempty.
Qed.

End OutputPaths.

(* ===================================================================== *)
(** ** The executor, step by step *)

Lemma run_ffmpeg_run (ffmpeg : encoder) (src out : Path) (w : world) :
  run_ffmpeg ffmpeg src out w
  = (match enc_proc (ffmpeg (fs w) src out) with
     | ProcRaises e => Exc e
     | ProcCompleted returncode _ => Val returncode
     end,
     MkWorld (encoded ffmpeg src out (fs w)) (state w) (disk w)
             (trace w ++ [EvEncode src out])).
Proof.
  unfold run_ffmpeg, encoded. unfold_monad. cbn.
  destruct (ffmpeg (fs w) src out) as [pr [x |]]; cbn; by destruct pr.
Qed.

Lemma convert_except_run (p : Path) (e : exn) (w : world) :
  convert_except p e w
  = (Val (error, MsgFailed (PathLib.name p) e),
     MkWorld (delete (temp_output p) (fs w))
             (<[state_key p := "failed"]> (state w))
             (<[state_key p := "failed"]> (state w))
             (trace w
                ++ (if bool_decide (is_Some (fs w !! temp_output p))
                    then [EvUnlink (temp_output p)] else [])
                ++ [EvSet (state_key p) "failed";
                    EvSave (<[state_key p := "failed"]> (state w))])).
Proof.
  unfold convert_except. unfold_os. unfold_monad. cbn.
  destruct (fs w !! temp_output p) as [x |] eqn:Hx; cbn.
  - rewrite Hx. cbn. by rewrite <- !app_assoc.
  - rewrite delete_id by done. by rewrite <- !app_assoc.
Qed.

Lemma bind_run {A B} (m : M A) (f : A -> M B) (w : world) :
  (m ≫= f) w
  = match m w with
    | (Val a, w') => f a w'
    | (Exc e, w') => (Exc e, w')
    end.
Proof. reflexivity. Qed.

Lemma path_exists_run (p : Path) (w : world) :
  Os.path_exists p w = (Val (bool_decide (is_Some (fs w !! p))), w).
Proof. reflexivity. Qed.

Lemma stat_size_run (p : Path) (x : file) (w : world) :
  fs w !! p = Some x -> Os.stat_size p w = (Val (f_size x), w).
Proof. intros H. unfold Os.stat_size. unfold_monad. cbn. by rewrite H. Qed.

Lemma unlink_run (p : Path) (x : file) (w : world) :
  fs w !! p = Some x ->
  Os.unlink p w
  = (Val tt, MkWorld (delete p (fs w)) (state w) (disk w)
                     (trace w ++ [EvUnlink p])).
Proof. intros H. unfold Os.unlink. unfold_monad. cbn. by rewrite H. Qed.

Lemma rename_run (src dst : Path) (x : file) (w : world) :
  fs w !! src = Some x ->
  Os.rename src dst w
  = (Val tt, MkWorld (<[dst := x]> (delete src (fs w))) (state w) (disk w)
                     (trace w ++ [EvRename src dst])).
Proof. intros H. unfold Os.rename. unfold_monad. cbn. by rewrite H. Qed.

Lemma set_state_run (k v : string) (w : world) :
  set_state k v w
  = (Val tt, MkWorld (fs w) (<[k := v]> (state w)) (disk w)
                     (trace w ++ [EvSet k v])).
Proof. reflexivity. Qed.

Lemma save_state_run (w : world) :
  save_state w
  = (Val tt, MkWorld (fs w) (state w) (state w) (trace w ++ [EvSave (state w)])).
Proof. reflexivity. Qed.

Lemma ret_run {A} (a : A) (w : world) : (mret a : M A) w = (Val a, w).
Proof. reflexivity. Qed.


Lemma encoded_other (ffmpeg : encoder) (src out q : Path) (f : gmap Path file) :
  q <> out -> encoded ffmpeg src out f !! q = f !! q.
Proof.
  intros Hq. unfold encoded.
  destruct (enc_written _); [by rewrite lookup_insert_ne | done].
Qed.

Lemma convert_try_failure (self : converter) (ffmpeg : encoder) (p : Path)
    (w : world) (e : exn) :
  encode_failure ffmpeg p (fs w) = Some e ->
  convert_try self ffmpeg p w
  = (Exc e, MkWorld (encoded ffmpeg p (temp_output p) (fs w)) (state w) (disk w)
                    (trace w ++ [EvEncode p (temp_output p)])).
Proof.
  unfold encode_failure, convert_try. intros H.
  unfold mbind at 1. unfold M_bind at 1. rewrite run_ffmpeg_run.
  destruct (enc_proc _) as [e' | rc out]; [by injection H as -> |].
  destruct (rc =? 0) eqn:Hrc; cbn [negb]; [| by injection H as <-].
  unfold_os. unfold_monad. cbn.
  destruct (encoded ffmpeg p (temp_output p) (fs w) !! temp_output p)
    as [x |] eqn:Hx; cbn; [| by injection H as <-].
  rewrite Hx. cbn.
  destruct (f_size x <? 1024)%N; [by injection H as <- | done].
Qed.

Lemma convert_video_failed_run (self : converter) (ffmpeg : encoder)
    (p : Path) (ow oh : json) (w : world) (e : exn) :
  encode_failure ffmpeg p (fs w) = Some e ->
  convert_video self ffmpeg (p, ow, oh) w
  = (Val (error, MsgFailed (PathLib.name p) e),
     MkWorld (delete (temp_output p) (encoded ffmpeg p (temp_output p) (fs w)))
             (<[state_key p := "failed"]> (state w))
             (<[state_key p := "failed"]> (state w))
             (trace w ++ failure_events ffmpeg p w)).
Proof.
  intros H. unfold convert_video, try_except.
  rewrite (convert_try_failure _ _ _ _ _ H), convert_except_run. cbn.
  unfold failure_events. by rewrite <- !app_assoc.
Qed.

Lemma savings_nonzero (a b : N) :
  a <> 0%N -> exists q, savings a b = Val q.
Proof.
  intros Ha. unfold savings. apply N.eqb_neq in Ha. rewrite Ha. eauto.
Qed.

Lemma convert_try_success (self : converter) (ffmpeg : encoder) (p : Path)
    (w : world) (out : option json) (x src : file) :
  enc_proc (ffmpeg (fs w) p (temp_output p)) = ProcCompleted 0 out ->
  encoded ffmpeg p (temp_output p) (fs w) !! temp_output p = Some x ->
  (1024 <= f_size x)%N ->
  fs w !! p = Some src ->
  (0 < f_size src)%N \/ final_output p = p ->
  exists (orig : file) (saved : Q),
    orig = (if decide (final_output p = p) then x else src) /\
    savings (f_size orig) (f_size x) = Val saved /\
    convert_try self ffmpeg p w
    = (Val (success, MsgConverted (PathLib.name p) saved (keep_originals self)),
       MkWorld (if keep_originals self then moved ffmpeg p x (fs w)
                else delete p (moved ffmpeg p x (fs w)))
               (<[state_key p := "converted"]> (state w))
               (<[state_key p := "converted"]> (state w))
               (trace w ++ success_events self ffmpeg p w)).
Proof.
  intros Hproc Hx Hsz Hsrc Hpos.
  set (orig := if decide (final_output p = p) then x else src).
  assert (moved ffmpeg p x (fs w) !! p = Some orig) as Hp.
  { unfold moved, orig. destruct (decide (final_output p = p)) as [Heq | Hne].
    - by rewrite Heq, lookup_insert_eq.
    - rewrite lookup_insert_ne, !lookup_delete_ne, encoded_other;
        auto using temp_output_fresh. }
  assert (f_size orig <> 0%N) as Hnz.
  { unfold orig. destruct (decide _); [lia |]. destruct Hpos; [lia | done]. }
  destruct (savings_nonzero _ (f_size x) Hnz) as [saved Hsaved].
  exists orig, saved. split; [done |]. split; [done |].
  assert (moved ffmpeg p x (fs w) !! final_output p = Some x) as Hf
    by apply lookup_insert_eq.
  unfold convert_try.
  rewrite bind_run, run_ffmpeg_run, Hproc. cbn [Z.eqb negb].
  rewrite bind_run, path_exists_run. world_simpl. rewrite Hx. cbn [negb bool_decide].
  rewrite bool_decide_true by eauto. cbn [negb].
  rewrite bind_run, (stat_size_run _ x) by done.
  assert ((f_size x <? 1024)%N = false) as -> by (apply N.ltb_ge; lia).
  rewrite bind_run, path_exists_run. world_simpl.
  unfold success_events.
  destruct (encoded ffmpeg p (temp_output p) (fs w) !! final_output p)
    as [y |] eqn:Hy.
  - rewrite bool_decide_true by eauto.
    rewrite bind_run, (unlink_run _ y) by done. world_simpl.
    rewrite bind_run, (rename_run _ _ x)
      by (world_simpl; rewrite lookup_delete_ne;
          [done | apply not_eq_sym, temp_output_not_final]).
    world_simpl. fold (moved ffmpeg p x (fs w)).
    rewrite bind_run, (stat_size_run _ orig) by done.
    rewrite bind_run, (stat_size_run _ x) by done.
    rewrite bind_run. unfold lift. rewrite Hsaved.
    destruct (keep_originals self); cbn [negb].
    + rewrite bind_run, ret_run.
      rewrite bind_run, set_state_run, bind_run, save_state_run, ret_run.
      world_simpl. by rewrite <- !app_assoc.
    + rewrite bind_run, bind_run, (unlink_run _ orig), ret_run by done.
      rewrite bind_run, set_state_run, bind_run, save_state_run, ret_run.
      world_simpl. by rewrite <- !app_assoc.
  - rewrite bool_decide_false by (by intros [? ?]).
    rewrite bind_run, ret_run.
    rewrite bind_run, (rename_run _ _ x) by done.
    world_simpl.
    replace (<[final_output p:=x]>
               (delete (temp_output p) (encoded ffmpeg p (temp_output p) (fs w))))
      with (moved ffmpeg p x (fs w))
      by (unfold moved; by rewrite (delete_id _ (final_output p))).
    rewrite bind_run, (stat_size_run _ orig) by done.
    rewrite bind_run, (stat_size_run _ x) by done.
    rewrite bind_run. unfold lift. rewrite Hsaved.
    destruct (keep_originals self); cbn [negb].
    + rewrite bind_run, ret_run.
      rewrite bind_run, set_state_run, bind_run, save_state_run, ret_run.
      world_simpl. by rewrite <- !app_assoc.
    + rewrite bind_run, bind_run, (unlink_run _ orig), ret_run by done.
      rewrite bind_run, set_state_run, bind_run, save_state_run, ret_run.
      world_simpl. by rewrite <- !app_assoc.
Qed.

Lemma job_failure_encode_failure (ffmpeg : encoder) (p : Path)
    (f : gmap Path file) (e : exn) :
  job_failure ffmpeg p f e -> encode_failure ffmpeg p f = Some e.
Proof.
  unfold encode_failure.
  intros [e' H | rc out H Hrc | out H Hx | out x H Hx Hsz]; rewrite H.
  - done.
  - apply Z.eqb_neq in Hrc. by rewrite Hrc.
  - cbn. by rewrite Hx.
  - cbn. rewrite Hx. apply N.ltb_lt in Hsz. by rewrite Hsz.
Qed.

Lemma convert_video_success_run (self : converter) (ffmpeg : encoder)
    (p : Path) (ow oh : json) (w : world) (out : option json) (x src : file) :
  enc_proc (ffmpeg (fs w) p (temp_output p)) = ProcCompleted 0 out ->
  encoded ffmpeg p (temp_output p) (fs w) !! temp_output p = Some x ->
  (1024 <= f_size x)%N ->
  fs w !! p = Some src ->
  (0 < f_size src)%N \/ final_output p = p ->
  exists saved : Q,
    savings (f_size (if decide (final_output p = p) then x else src)) (f_size x)
    = Val saved /\
    convert_video self ffmpeg (p, ow, oh) w
    = (Val (success, MsgConverted (PathLib.name p) saved (keep_originals self)),
       MkWorld (if keep_originals self then moved ffmpeg p x (fs w)
                else delete p (moved ffmpeg p x (fs w)))
               (<[state_key p := "converted"]> (state w))
               (<[state_key p := "converted"]> (state w))
               (trace w ++ success_events self ffmpeg p w)).
Proof.
  intros Hproc Hx Hsz Hsrc Hpos.
  destruct (convert_try_success self ffmpeg p w out x src)
    as (orig & saved & -> & Hsaved & Hrun); try done.
  exists saved. split; [done |].
  unfold convert_video, try_except. by rewrite Hrun.
Qed.

(** [convert_video] returns a result whatever happens in its [try] block. *)
Lemma convert_video_total (self : converter) (ffmpeg : encoder)
    (file_info : Path * json * json) (w : world) :
  exists (r : status * message) (w' : world),
    convert_video self ffmpeg file_info w = (Val r, w').
Proof.
  destruct file_info as [[p ow] oh]. unfold convert_video, try_except.
  destruct (convert_try self ffmpeg p w) as [[r | e] w1]; [by eauto |].
  rewrite convert_except_run. eauto.
Qed.

(** C5.  When the encoder raises (a timeout), exits nonzero, leaves no
    output or leaves one of less than 1024 bytes, [convert_video] returns an
    error result with the file name and the reason instead of raising; the
    temporary output is gone (deleted when it was there), the entry of the
    file is [failed] and saved, and the source and every other file are as
    they were. *)
Theorem convert_video_failure (self : converter) (ffmpeg : encoder)
    (p : Path) (ow oh : json) (w : world) (e : exn) :
  job_failure ffmpeg p (fs w) e ->
  exists w' : world,
    convert_video self ffmpeg (p, ow, oh) w
    = (Val (error, MsgFailed (PathLib.name p) e), w') /\
    fs w' !! temp_output p = None /\
    trace w' = trace w
               ++ [EvEncode p (temp_output p)]
               ++ (if bool_decide (is_Some (encoded ffmpeg p (temp_output p)
                                              (fs w) !! temp_output p))
                   then [EvUnlink (temp_output p)] else [])
               ++ [EvSet (state_key p) "failed"; EvSave (state w')] /\
    state w' = <[state_key p := "failed"]> (state w) /\
    disk w' = state w' /\
    fs w' !! p = fs w !! p /\
    (forall q : Path, q <> temp_output p -> fs w' !! q = fs w !! q).
Proof.
  intros H%job_failure_encode_failure.
  eexists. split; [by apply convert_video_failed_run |]. world_simpl.
  assert (forall q : Path, q <> temp_output p ->
            delete (temp_output p) (encoded ffmpeg p (temp_output p) (fs w)) !! q
            = fs w !! q) as Hframe.
  { intros q Hq. by rewrite lookup_delete_ne, encoded_other. }
  repeat split; try done.
  - apply lookup_delete_eq.
  - apply Hframe, not_eq_sym, temp_output_fresh.
Qed.

Lemma convert_video_failure_witness :
  exists w' : world,
    convert_video Sample.delete_originals Sample.bad_encoder
      (Sample.big_mp4, JInt 640, JInt 480) Sample.start
    = (Val (error, MsgFailed "big.mp4" (FFmpegFailed 1)), w') /\
    fs w' !! Sample.big_mp4 = Some (Sample.video 640 480 100000).
Proof.
  destruct (convert_video_failure Sample.delete_originals Sample.bad_encoder
              Sample.big_mp4 (JInt 640) (JInt 480) Sample.start (FFmpegFailed 1))
    as (w' & Hrun & _ & _ & _ & _ & Hsrc & _).
  - by eapply fail_exit_code.
  - exists w'. split; [exact Hrun |]. rewrite Hsrc. reflexivity.
Defined.

(** X17.  The success postcondition, for a source that is not its own final
    output path: whatever is at the final path is removed, the temporary
    output is renamed to it, the source is deleted unless originals are
    kept, after the rename, and the entry is set to [converted] and saved. *)
Lemma convert_video_success_distinct (self : converter) (ffmpeg : encoder)
    (p : Path) (ow oh : json) (w : world) (out : option json) (x src : file) :
  final_output p <> p ->
  enc_proc (ffmpeg (fs w) p (temp_output p)) = ProcCompleted 0 out ->
  encoded ffmpeg p (temp_output p) (fs w) !! temp_output p = Some x ->
  (1024 <= f_size x)%N ->
  fs w !! p = Some src ->
  (0 < f_size src)%N ->
  exists (saved : Q) (w' : world),
    convert_video self ffmpeg (p, ow, oh) w
    = (Val (success, MsgConverted (PathLib.name p) saved (keep_originals self)),
       w') /\
    trace w' = trace w
               ++ [EvEncode p (temp_output p)]
               ++ (if bool_decide (is_Some (fs w !! final_output p))
                   then [EvUnlink (final_output p)] else [])
               ++ [EvRename (temp_output p) (final_output p)]
               ++ (if keep_originals self then [] else [EvUnlink p])
               ++ [EvSet (state_key p) "converted"; EvSave (state w')] /\
    fs w' !! final_output p = Some x /\
    fs w' !! temp_output p = None /\
    fs w' !! p = (if keep_originals self then Some src else None) /\
    state w' = <[state_key p := "converted"]> (state w) /\
    disk w' = state w'.
Proof.
  intros Hne Hproc Hx Hsz Hsrc Hpos.
  destruct (convert_video_success_run self ffmpeg p ow oh w out x src)
    as (saved & _ & Hrun); auto.
  exists saved. eexists. split; [exact Hrun |]. world_simpl.
  pose proof (temp_output_fresh p) as Htp.
  pose proof (temp_output_not_final p) as Htf.
  assert (moved ffmpeg p x (fs w) !! p = Some src) as Hp.
  { unfold moved.
    by rewrite lookup_insert_ne, !lookup_delete_ne, encoded_other. }
  assert (moved ffmpeg p x (fs w) !! temp_output p = None) as Ht.
  { unfold moved. rewrite lookup_insert_ne by done. apply lookup_delete_eq. }
  assert (moved ffmpeg p x (fs w) !! final_output p = Some x) as Hf
    by apply lookup_insert_eq.
  split.
  { unfold success_events.
    by rewrite (encoded_other _ _ _ (final_output p)). }
  destruct (keep_originals self).
  - by repeat split.
  - rewrite !lookup_delete_ne by done. repeat split; try done.
    apply lookup_delete_eq.
Qed.

(** C4, on the code.  A source that is already a [.3gp] file is its own
    final output path: with originals kept, the source is removed as the
    file found at the final path, before the rename, and the only file left
    is the converted one. *)
Theorem convert_video_3gp_original_not_kept :
  let job := convert_video Sample.keep_them Sample.good_encoder
               (Sample.big_3gp, JInt 352, JInt 288) Sample.start in
  (exists saved : Q,
      job.1 = Val (success, MsgConverted "clip.3gp" saved true)) /\
  keep_originals Sample.keep_them = true /\
  trace job.2 = [EvEncode Sample.big_3gp (temp_output Sample.big_3gp);
                 EvUnlink Sample.big_3gp;
                 EvRename (temp_output Sample.big_3gp) Sample.big_3gp;
                 EvSet "/videos/clip.3gp" "converted";
                 EvSave (state job.2)] /\
  fs Sample.start !! Sample.big_3gp = Some (Sample.video 352 288 50000) /\
  fs job.2 !! Sample.big_3gp = Some (Sample.video 176 144 2048).
Proof.
  cbv zeta. split; [eexists |]; repeat split; vm_compute; reflexivity.
Qed.



(* ===================================================================== *)
(** ** The scanner *)

Lemma scan_file_run (p : Path) (v : scan_vars) (w : world) :
  scan_file p v w = scan_file_cases p v w.
Proof.
  unfold scan_file, scan_file_cases, eligible, marked_converted, state_key.
  rewrite bind_run. unfold Os.is_file. rewrite path_exists_run.
  destruct (bool_decide (is_Some (fs w !! p))); cbn [negb andb]; [| done].
  destruct (in_VIDEO_EXTENSIONS _); cbn [negb andb]; [| done].
  destruct (Str.startswith _ _); cbn [negb]; [done |].
  rewrite bind_run. unfold get_state at 1.
  destruct (bool_decide (state w !! _ = Some "converted")); [done |].
  rewrite bind_run, get_video_resolution_run.
  destruct (probe_contract _) as [[width height] |]; [| done].
  unfold decide_resolution, mark_skipped, state_key, logged.
  destruct (is_3gp p && Py.eq_int width TARGET_WIDTH
            && Py.eq_int height TARGET_HEIGHT).
  { rewrite bind_run, set_state_run, ret_run. world_simpl.
    by rewrite <- app_assoc. }
  rewrite bind_run. unfold lift.
  destruct (Py.gt_int width TARGET_WIDTH) as [[|] | e]; [| | done].
  { by rewrite bind_run, ret_run. }
  rewrite bind_run.
  destruct (Py.gt_int height TARGET_HEIGHT) as [[|] | e]; [done | | done].
  destruct (Py.eq_int width TARGET_WIDTH && Py.eq_int height TARGET_HEIGHT
            && negb (is_3gp p)); [done |].
  rewrite bind_run, set_state_run, ret_run. world_simpl.
  by rewrite <- app_assoc.
Qed.

Lemma decide_resolution_policy (target_container : bool) (width height : Z) :
  decide_resolution target_container (JInt width) (JInt height)
  = match policy target_container width height with
    | MarkSkipped => DSkip
    | QueueForConversion => DQueue
    end.
Proof.
  unfold decide_resolution, policy. cbn [Py.eq_int Py.gt_int].
  destruct (target_container && (width =? TARGET_WIDTH)
            && (height =? TARGET_HEIGHT)) eqn:H1; [done |].
  destruct (TARGET_WIDTH <? width); cbn [orb]; [done |].
  destruct (TARGET_HEIGHT <? height); [done |].
  destruct ((width =? TARGET_WIDTH) && (height =? TARGET_HEIGHT)) eqn:H2;
    cbn [andb].
  - destruct target_container; cbn in *; [congruence | done].
  - done.
Qed.

(** C1.  The classification policy of the scanner: a regular file with a
    supported extension and no temporary prefix, not marked [converted],
    whose probe gives (width, height), is marked [skipped] and not queued
    when it is a 176x144 [.3gp]; else queued when wider or taller than the
    target; else queued when 176x144 in another container; else marked
    [skipped] and not queued, which covers every file strictly smaller than
    the target in both dimensions. *)
Theorem scan_file_policy (p : Path) (v : scan_vars) (w : world)
    (width height : Z) :
  eligible (fs w) p = true ->
  state w !! state_key p <> Some "converted" ->
  get_video_resolution p w
  = (Val (Some (JInt width, JInt height)), logged w [EvProbe p]) ->
  scan_file p v w
  = match policy (is_3gp p) width height with
    | MarkSkipped =>
        (Val (MkScan (files_to_convert v) (S (skipped v)) (already_done v)),
         MkWorld (fs w) (<[state_key p := "skipped"]> (state w)) (disk w)
                 (trace w ++ [EvProbe p; EvSet (state_key p) "skipped"]))
    | QueueForConversion =>
        (Val (MkScan (files_to_convert v ++ [(p, JInt width, JInt height)])
                     (skipped v) (already_done v)),
         logged w [EvProbe p])
    end
  /\ (width < TARGET_WIDTH -> height < TARGET_HEIGHT ->
      policy (is_3gp p) width height = MarkSkipped).
Proof.
  intros Hel Hst Hprobe. split.
  - rewrite get_video_resolution_run in Hprobe.
    injection Hprobe as Hprobe.
    rewrite scan_file_run. unfold scan_file_cases, marked_converted.
    rewrite Hel, bool_decide_false by done. cbn [negb].
    rewrite Hprobe, decide_resolution_policy.
    by destruct (policy _ _ _).
  - unfold policy, TARGET_WIDTH, TARGET_HEIGHT. intros Hw Hh.
    assert ((width =? 176) = false) as -> by (apply Z.eqb_neq; lia).
    assert ((176 <? width) = false) as -> by (apply Z.ltb_ge; lia).
    assert ((144 <? height) = false) as -> by (apply Z.ltb_ge; lia).
    by rewrite andb_false_r.
Qed.

Lemma scan_file_policy_witness :
  scan_file Sample.small_avi (MkScan [] 0 0) Sample.start
  = (Val (MkScan [] 1 0),
     MkWorld Sample.files {["/videos/small.avi" := "skipped"]} ∅
             [EvProbe Sample.small_avi; EvSet "/videos/small.avi" "skipped"]).
Proof.
  assert (state Sample.start !! state_key Sample.small_avi <> Some "converted")
    as Hst by (by vm_compute).
  destruct (scan_file_policy Sample.small_avi (MkScan [] 0 0) Sample.start
              120 90 eq_refl Hst eq_refl) as [Hrun _].
  exact Hrun.
Defined.

(* ===================================================================== *)
(** ** The shape of every job *)

Lemma convert_try_shape (self : converter) (ffmpeg : encoder) (p : Path)
    (w : world) :
  match convert_try self ffmpeg p w with
  | (Val r, w1) =>
      exists evs,
        trace w1 = ((trace w ++ evs) ++ [EvSet (state_key p) "converted"])
                   ++ [EvSave (state w1)] /\
        Forall (fun ev => state_event ev = false) evs /\
        r.1 = success /\
        state w1 = <[state_key p := "converted"]> (state w) /\
        disk w1 = state w1
  | (Exc e, w1) =>
      exists evs,
        trace w1 = trace w ++ evs /\
        Forall (fun ev => state_event ev = false) evs /\
        state w1 = state w /\ disk w1 = disk w
  end.
Proof.
  unfold convert_try, run_ffmpeg. unfold_os. unfold_monad. cbn.
  repeat (case_match; simplify_eq/=).
  all: eexists.
  all: (split; [first [ do 2 f_equal; rewrite <- ?app_assoc; reflexivity
                      | rewrite <- ?app_assoc; reflexivity ] |]).
  all: split; [repeat constructor | done].
Qed.

(** Every job returns a result, and ends by writing the status of its file
    to [self.state] and saving the whole map at once. *)
Lemma convert_video_shape (self : converter) (ffmpeg : encoder)
    (p : Path) (ow oh : json) (w : world) :
  exists (r : status * message) (st : string) (evs : list event) (w' : world),
    convert_video self ffmpeg (p, ow, oh) w = (Val r, w') /\
    trace w' = trace w ++ evs ++ [EvSet (state_key p) st; EvSave (state w')] /\
    Forall (fun ev => state_event ev = false) evs /\
    state w' = <[state_key p := st]> (state w) /\
    disk w' = state w' /\
    (r.1 = success /\ st = "converted" \/ r.1 = error /\ st = "failed").
Proof.
  unfold convert_video, try_except.
  pose proof (convert_try_shape self ffmpeg p w) as H.
  destruct (convert_try self ffmpeg p w) as [[r | e] w1].
  - destruct H as (evs & Htr & Hevs & Hr & Hst & Hdisk).
    exists r, "converted", evs, w1. rewrite Htr, <- !app_assoc. by eauto 10.
  - destruct H as (evs & Htr & Hevs & Hst & Hdisk).
    rewrite convert_except_run. do 2 eexists.
    exists (evs ++ (if bool_decide (is_Some (fs w1 !! temp_output p))
                    then [EvUnlink (temp_output p)] else [])).
    eexists. split; [done |]. world_simpl.
    rewrite Htr, Hst, <- !app_assoc. repeat split; auto.
    apply Forall_app. split; [done |]. case_bool_decide; repeat constructor.
Qed.

(* ===================================================================== *)
(** ** One turn of the scan loop *)

(** What a turn can do to the world: nothing, a probe, or a probe and a
    [skipped] mark on a key that is not [converted]. *)
Inductive scan_effect (p : Path) (w : world) : world -> Prop :=
| effect_none : scan_effect p w w
| effect_probe : scan_effect p w (logged w [EvProbe p])
| effect_mark :
    state w !! state_key p <> Some "converted" ->
    scan_effect p w (mark_skipped p w).

Lemma scan_file_effect (p : Path) (v : scan_vars) (w : world) :
  scan_effect p w (scan_file p v w).2.
Proof.
  rewrite scan_file_run. unfold scan_file_cases, marked_converted.
  destruct (eligible (fs w) p); cbn [negb]; [| constructor].
  case_bool_decide; [constructor |].
  destruct (probe_contract _) as [[width height] |]; [| constructor].
  destruct (decide_resolution _ _ _); by constructor.
Qed.

Lemma scan_effect_fs (p : Path) (w w' : world) :
  scan_effect p w w' -> fs w' = fs w /\ disk w' = disk w.
Proof. by intros []. Qed.

Lemma scan_effect_converted (p : Path) (w w' : world) (k : string) :
  scan_effect p w w' ->
  state w' !! k = Some "converted" <-> state w !! k = Some "converted".
Proof.
  intros [| | Hk]; cbn; [done | done |].
  destruct (decide (state_key p = k)) as [<- | Hne].
  - rewrite lookup_insert_eq. split; [done | by intros ?].
  - by rewrite lookup_insert_ne.
Qed.

Lemma scan_effect_trace (p : Path) (w w' : world) :
  scan_effect p w w' ->
  exists evs, trace w' = trace w ++ evs /\
              Forall (fun ev => ev = EvProbe p
                                \/ ev = EvSet (state_key p) "skipped") evs.
Proof.
  intros [| | Hk]; cbn.
  - exists []. by rewrite app_nil_r.
  - exists [EvProbe p]. split; [done |]. constructor; [by left | constructor].
  - exists [EvProbe p; EvSet (state_key p) "skipped"]. split; [done |].
    constructor; [by left |]. constructor; [by right | constructor].
Qed.

(** What a turn can do to the worklist: nothing, or one more candidate for
    the file at hand. *)
Lemma scan_file_worklist (p : Path) (v v' : scan_vars) (w : world) :
  (scan_file p v w).1 = Val v' ->
  files_to_convert v' = files_to_convert v
  \/ exists width height,
       files_to_convert v' = files_to_convert v ++ [(p, width, height)] /\
       eligible (fs w) p = true /\
       marked_converted (state w) p = false /\
       probe_contract (ffprobe_answer w p) = Some (width, height) /\
       decide_resolution (is_3gp p) width height = DQueue.
Proof.
  rewrite scan_file_run. unfold scan_file_cases.
  destruct (eligible (fs w) p) eqn:Hel; cbn [negb]; [| intros [= <-]; by left].
  destruct (marked_converted (state w) p) eqn:Hc; [intros [= <-]; by left |].
  destruct (probe_contract _) as [[width height] |] eqn:Hp;
    [| intros [= <-]; by left].
  destruct (decide_resolution _ _ _) eqn:Hd; cbn; intros [= <-].
  - by left.
  - right. by exists width, height.
Qed.

(** C9.  A file whose probe returns [None] is counted as skipped and nothing
    else: no entry is written to [self.state], nothing is saved, and the
    only event is the probe; the file is probed again by the next scan. *)
Theorem scan_file_probe_failure (p : Path) (v : scan_vars) (w : world) :
  eligible (fs w) p = true ->
  state w !! state_key p <> Some "converted" ->
  get_video_resolution p w = (Val None, logged w [EvProbe p]) ->
  exists w' : world,
    scan_file p v w
    = (Val (MkScan (files_to_convert v) (S (skipped v)) (already_done v)), w') /\
    state w' = state w /\
    disk w' = disk w /\
    fs w' = fs w /\
    trace w' = trace w ++ [EvProbe p] /\
    forall v2 : scan_vars,
      scan_file p v2 w'
      = (Val (MkScan (files_to_convert v2) (S (skipped v2)) (already_done v2)),
         logged w' [EvProbe p]).
Proof.
  intros Hel Hst Hprobe.
  rewrite get_video_resolution_run in Hprobe. injection Hprobe as Hprobe.
  exists (logged w [EvProbe p]).
  assert (forall (u : world) (v1 : scan_vars),
            fs u = fs w -> state u = state w ->
            scan_file p v1 u = (Val (count_skipped v1), logged u [EvProbe p]))
    as Hscan.
  { intros u v1 Hfs Hstate. rewrite scan_file_run.
    unfold scan_file_cases, marked_converted, ffprobe_answer.
    rewrite Hfs, Hstate, Hel, bool_decide_false by done. cbn [negb].
    unfold ffprobe_answer in Hprobe. by rewrite Hprobe. }
  split; [by apply Hscan |]. repeat split.
  intros v2. by apply Hscan.
Qed.

Lemma scan_file_probe_failure_witness :
  scan_file Resume.broken_mkv (MkScan [] 0 0) Resume.broken
  = (Val (MkScan [] 1 0), logged Resume.broken [EvProbe Resume.broken_mkv]).
Proof.
  assert (state Resume.broken !! state_key Resume.broken_mkv
          <> Some "converted") as Hst by (by vm_compute).
  destruct (scan_file_probe_failure Resume.broken_mkv (MkScan [] 0 0)
              Resume.broken eq_refl Hst eq_refl)
    as (w' & Hrun & Hstate & Hdisk & Hfs & Htrace & _).
  rewrite Hrun. f_equal.
  destruct w' as [f s d t]; cbn in *. by subst.
Defined.

(* ===================================================================== *)
(** ** The scan loop *)

Lemma scan_loop_cons (p : Path) (rest : list Path) (v : scan_vars) (w : world) :
  scan_loop (p :: rest) v w
  = match scan_file p v w with
    | (Val v', w') => scan_loop rest v' w'
    | (Exc e, w') => (Exc e, w')
    end.
Proof. reflexivity. Qed.

Lemma scan_entries_run (entries : list Path) (w : world) :
  scan_entries entries w
  = match scan_loop entries (MkScan [] 0 0) w with
    | (Val v, w1) =>
        (Val (files_to_convert v),
         MkWorld (fs w1) (state w1) (state w1) (trace w1 ++ [EvSave (state w1)]))
    | (Exc e, w1) => (Exc e, w1)
    end.
Proof.
  unfold scan_entries. rewrite bind_run.
  by destruct (scan_loop entries (MkScan [] 0 0) w) as [[v | e] w1].
Qed.

Lemma scan_file_converted (p : Path) (v : scan_vars) (w : world) :
  state w !! state_key p = Some "converted" ->
  exists v', scan_file p v w = (Val v', w) /\
             files_to_convert v' = files_to_convert v.
Proof.
  intros H. rewrite scan_file_run. unfold scan_file_cases, marked_converted.
  rewrite bool_decide_true by done.
  destruct (eligible (fs w) p); cbn [negb]; eauto.
Qed.

Lemma scan_file_converted_other (p q : Path) (v : scan_vars) (w : world) :
  state w !! state_key q = Some "converted" ->
  exists evs,
    trace (scan_file p v w).2 = trace w ++ evs /\
    (EvProbe q ∉ evs) /\
    state (scan_file p v w).2 !! state_key q = Some "converted" /\
    forall v', (scan_file p v w).1 = Val v' ->
      forall width height,
        (q, width, height) ∈ files_to_convert v' ->
        (q, width, height) ∈ files_to_convert v.
Proof.
  intros Hq. destruct (decide (p = q)) as [-> | Hne].
  - destruct (scan_file_converted q v w Hq) as (v1 & Hrun & Hfiles).
    exists []. rewrite Hrun. cbn. rewrite app_nil_r.
    repeat split; [by apply not_elem_of_nil | done |].
    intros v' [= <-]. by rewrite Hfiles.
  - pose proof (scan_file_effect p v w) as Heff.
    destruct (scan_effect_trace _ _ _ Heff) as (evs & Htr & Hevs).
    exists evs. split; [done |]. split.
    { intros Hin. rewrite Forall_forall in Hevs.
      destruct (Hevs _ Hin) as [[= ->] | [=]]. done. }
    split; [by apply (scan_effect_converted _ _ _ _ Heff) |].
    intros v' Hv' width height Hin.
    destruct (scan_file_worklist _ _ _ _ Hv') as [Heq | (wd & ht & Heq & _)];
      rewrite Heq in Hin; [done |].
    apply elem_of_app in Hin as [Hin | Hin]; [done |].
    apply list_elem_of_singleton in Hin. congruence.
Qed.

Lemma scan_loop_converted (entries : list Path) (q : Path) :
  forall (v : scan_vars) (w : world),
    state w !! state_key q = Some "converted" ->
    exists evs,
      trace (scan_loop entries v w).2 = trace w ++ evs /\
      (EvProbe q ∉ evs) /\
      state (scan_loop entries v w).2 !! state_key q = Some "converted" /\
      forall v', (scan_loop entries v w).1 = Val v' ->
        forall width height,
          (q, width, height) ∈ files_to_convert v' ->
          (q, width, height) ∈ files_to_convert v.
Proof.
  induction entries as [| p rest IH]; intros v w Hq.
  - exists []. cbn. rewrite app_nil_r.
    repeat split; [by apply not_elem_of_nil | done |]. by intros v' [= <-].
  - rewrite scan_loop_cons.
    destruct (scan_file_converted_other p q v w Hq)
      as (evs1 & Htr1 & Hno1 & Hq1 & Hfiles1).
    destruct (scan_file p v w) as [[v1 | e] w1]; cbn in *.
    + destruct (IH v1 w1 Hq1) as (evs2 & Htr2 & Hno2 & Hq2 & Hfiles2).
      exists (evs1 ++ evs2). rewrite Htr2, Htr1, <- app_assoc.
      repeat split; [| done |].
      * intros [?|?]%elem_of_app; done.
      * intros v' Hv' width height Hin. eauto.
    + exists evs1. repeat split; try done.
Qed.

(** C7.  A file whose key is marked [converted] when the scan starts is
    never probed by the scan and never put in the worklist; its mark is still
    there when the scan ends. *)
Theorem scan_videos_converted (self : converter) (listing : list (list string))
    (w : world) (p : Path) :
  state w !! state_key p = Some "converted" ->
  exists evs : list event,
    trace (scan_videos self listing w).2 = trace w ++ evs /\
    (EvProbe p ∉ evs) /\
    state (scan_videos self listing w).2 !! state_key p = Some "converted" /\
    forall files, (scan_videos self listing w).1 = Val files ->
      forall width height, (p, width, height) ∉ files.
Proof.
  intros Hp. unfold scan_videos. rewrite scan_entries_run.
  set (entries := PathLib.rglob (folder_path self) listing).
  destruct (scan_loop_converted entries p (MkScan [] 0 0) w Hp)
    as (evs & Htr & Hno & Hst & Hfiles).
  destruct (scan_loop entries (MkScan [] 0 0) w) as [[v | e] w1]; cbn in *.
  - exists (evs ++ [EvSave (state w1)]). rewrite Htr, <- app_assoc.
    repeat split; [| done |].
    + intros [? | Hin]%elem_of_app; [done |].
      apply list_elem_of_singleton in Hin. done.
    + intros files [= <-] width height Hin.
      by apply (Hfiles v eq_refl), not_elem_of_nil in Hin.
  - exists evs. repeat split; try done.
Qed.

Lemma scan_videos_converted_witness :
  exists evs : list event,
    trace (scan_videos Sample.keep_them Resume.listing Resume.restart).2 = evs /\
    (EvProbe Sample.big_mp4 ∉ evs) /\
    (scan_videos Sample.keep_them Resume.listing Resume.restart).1
    = Val [(Sample.big_3gp, JInt 352, JInt 288)].
Proof.
  assert (state Resume.restart !! state_key Sample.big_mp4 = Some "converted")
    as Hst by (by vm_compute).
  destruct (scan_videos_converted Sample.keep_them Resume.listing
              Resume.restart Sample.big_mp4 Hst)
    as (evs & Htr & Hno & _ & _).
  exists evs. split; [exact Htr |]. split; [exact Hno |]. by vm_compute.
Defined.

Lemma scan_loop_trace (entries : list Path) :
  forall (v : scan_vars) (w : world),
    exists evs,
      trace (scan_loop entries v w).2 = trace w ++ evs /\
      Forall (fun ev => exists p, p ∈ entries /\
                          (ev = EvProbe p
                           \/ ev = EvSet (state_key p) "skipped")) evs /\
      fs (scan_loop entries v w).2 = fs w /\
      disk (scan_loop entries v w).2 = disk w.
Proof.
  induction entries as [| p rest IH]; intros v w.
  - exists []. cbn. by rewrite app_nil_r.
  - rewrite scan_loop_cons.
    pose proof (scan_file_effect p v w) as Heff.
    destruct (scan_effect_trace _ _ _ Heff) as (evs1 & Htr1 & Hevs1).
    destruct (scan_effect_fs _ _ _ Heff) as [Hfs1 Hdisk1].
    assert (Forall (fun ev => exists q, q ∈ p :: rest /\
                       (ev = EvProbe q \/ ev = EvSet (state_key q) "skipped"))
                   evs1) as Hevs1'.
    { eapply Forall_impl; [exact Hevs1 |]. intros ev Hev. exists p.
      split; [apply list_elem_of_here | done]. }
    destruct (scan_file p v w) as [[v1 | e] w1]; cbn in *; [| by eauto].
    destruct (IH v1 w1) as (evs2 & Htr2 & Hevs2 & Hfs2 & Hdisk2).
    exists (evs1 ++ evs2). rewrite Htr2, Htr1, <- app_assoc, Hfs2, Hdisk2.
    repeat split; try done.
    apply Forall_app. split; [done |].
    eapply Forall_impl; [exact Hevs2 |]. intros ev (q & Hq & Hev).
    exists q. split; [by apply list_elem_of_further | done].
Qed.

Lemma keys_written_app (a b : list event) :
  keys_written (a ++ b) = keys_written a ++ keys_written b.
Proof. apply omap_app. Qed.

Lemma keys_written_quiet (evs : list event) :
  Forall (fun ev => state_event ev = false) evs -> keys_written evs = [].
Proof.
  induction 1 as [| ev evs Hev _ IH]; [done |].
  unfold keys_written in *. cbn. rewrite IH. by destruct ev.
Qed.

(** C10, on the code.  Started on the relative folder [videos], the scan
    writes the key [videos/tiny.avi], which is not the lower-cased absolute
    path of the file. *)
Lemma relative_root_key_not_absolute :
  ~ keys_absolute Relative.cwd Relative.self Relative.listing Relative.start.
Proof.
  intros H.
  destruct (H "videos/tiny.avi") as (p & Hin & Heq).
  - assert (keys_written
              (trace (scan_videos Relative.self Relative.listing
                        Relative.start).2) = ["videos/tiny.avi"]) as ->
      by (by vm_compute).
    apply list_elem_of_here.
  - cbn in Hin. apply list_elem_of_singleton in Hin. subst p.
    by vm_compute in Heq.
Qed.

(** C10, amended.  Every key written by the scan is the lower-cased string
    of a scanned path, that is of the given folder joined with a listed
    entry; the key written by a job is the lower-cased string of the path of
    its candidate.  These are absolute paths exactly when the given folder
    is. *)
Theorem keys_written_lowercase (self : converter) (ffmpeg : encoder)
    (listing : list (list string)) (w : world) (p : Path) (ow oh : json) :
  (exists evs,
      trace (scan_videos self listing w).2 = trace w ++ evs /\
      forall k, k ∈ keys_written evs ->
        exists rel, rel ∈ listing /\
          k = Str.lower (PathLib.str (PathLib.joinpath (folder_path self) rel)))
  /\ (exists evs,
        trace (convert_video self ffmpeg (p, ow, oh) w).2 = trace w ++ evs /\
        forall k, k ∈ keys_written evs -> k = Str.lower (PathLib.str p))
  /\ (forall rel,
        PathLib.is_absolute (PathLib.joinpath (folder_path self) rel)
        = PathLib.is_absolute (folder_path self))
  /\ (forall cwd q, PathLib.is_absolute q = true -> PathLib.absolute cwd q = q).
Proof.
  split; [| split; [| split]].
  - unfold scan_videos. rewrite scan_entries_run.
    set (entries := PathLib.rglob (folder_path self) listing).
    destruct (scan_loop_trace entries (MkScan [] 0 0) w)
      as (evs & Htr & Hevs & _).
    assert (forall k, k ∈ keys_written evs ->
              exists rel, rel ∈ listing /\
                k = Str.lower (PathLib.str
                                 (PathLib.joinpath (folder_path self) rel)))
      as Hkeys.
    { intros k Hk. unfold keys_written in Hk.
      apply list_elem_of_omap in Hk as (ev & Hev & Hk).
      rewrite Forall_forall in Hevs.
      destruct (Hevs ev Hev) as (q & Hq & [-> | ->]); [done |].
      injection Hk as <-.
      unfold entries, PathLib.rglob in Hq.
      apply list_elem_of_In, in_map_iff in Hq as (rel & <- & Hrel).
      exists rel. split; [by apply list_elem_of_In | done]. }
    destruct (scan_loop entries (MkScan [] 0 0) w) as [[v | e] w1]; cbn in *.
    + exists (evs ++ [EvSave (state w1)]). rewrite Htr, <- app_assoc.
      split; [done |]. intros k Hk.
      rewrite keys_written_app in Hk. cbn in Hk. rewrite app_nil_r in Hk. auto.
    + by exists evs.
  - destruct (convert_video_shape self ffmpeg p ow oh w)
      as (r & st & evs & w' & Hrun & Htr & Hevs & _).
    rewrite Hrun. cbn. eexists. split; [exact Htr |].
    intros k Hk. rewrite keys_written_app, keys_written_quiet in Hk by done.
    cbn in Hk. by apply list_elem_of_singleton in Hk.
  - done.
  - intros cwd q Hq. unfold PathLib.absolute, PathLib.is_absolute in *.
    by rewrite Hq.
Qed.

(** C6, on the code.  A scan that classifies two files as skipped mutates
    [self.state] twice and saves once, after the loop: the first mutation is
    not saved before the second one. *)
Lemma scan_saves_once :
  let tr := trace (scan_videos Sample.delete_originals Resume.listing
                     Sample.start).2 in
  persisted_each false tr = false /\
  keys_written tr = ["/videos/small.avi"; "/videos/tiny.avi"] /\
  saves tr = 1%nat.
Proof. by vm_compute. Qed.

(** C6, amended.  The scan keeps its [skipped] marks in memory and saves the
    whole map once, when the loop is over, whatever the number of marks; a
    job makes one mutation, the status of its file, and saves the whole map
    right after it. *)
Theorem state_saved (self : converter) (ffmpeg : encoder)
    (listing : list (list string)) (w : world) (p : Path) (ow oh : json) :
  (forall files w', scan_videos self listing w = (Val files, w') ->
     exists evs,
       trace w' = trace w ++ evs ++ [EvSave (state w')] /\
       saves evs = 0%nat /\
       disk w' = state w')
  /\ (exists r st evs w',
        convert_video self ffmpeg (p, ow, oh) w = (Val r, w') /\
        trace w' = trace w ++ evs
                   ++ [EvSet (state_key p) st; EvSave (state w')] /\
        Forall (fun ev => state_event ev = false) evs /\
        state w' = <[state_key p := st]> (state w) /\
        disk w' = state w').
Proof.
  split.
  - intros files w'. unfold scan_videos. rewrite scan_entries_run.
    set (entries := PathLib.rglob (folder_path self) listing).
    destruct (scan_loop_trace entries (MkScan [] 0 0) w)
      as (evs & Htr & Hevs & _).
    destruct (scan_loop entries (MkScan [] 0 0) w) as [[v | e] w1];
      cbn in *; [| done].
    intros [= <- <-]. exists evs. cbn. rewrite Htr, <- app_assoc.
    repeat split. clear Htr.
    induction Hevs as [| ev evs (q & _ & [-> | ->]) _ IH]; done.
  - destruct (convert_video_shape self ffmpeg p ow oh w)
      as (r & st & evs & w' & Hrun & Htr & Hevs & Hst & Hdisk & _).
    by exists r, st, evs, w'.
Qed.

Lemma state_saved_witness :
  exists files w' evs,
    scan_videos Sample.delete_originals Resume.listing Sample.start
    = (Val files, w') /\
    trace w' = trace Sample.start ++ evs ++ [EvSave (state w')] /\
    saves evs = 0%nat.
Proof.
  destruct (scan_videos Sample.delete_originals Resume.listing Sample.start)
    as [[files | e] w'] eqn:Hrun.
  - destruct (state_saved Sample.delete_originals Sample.good_encoder
                Resume.listing Sample.start Sample.big_mp4 (JInt 640)
                (JInt 480)) as [Hscan _].
    destruct (Hscan files w' Hrun) as (evs & Htr & Hsaves & _).
    exists files, w', evs. split; [reflexivity |]. split; [exact Htr | exact Hsaves].
  - apply (f_equal fst) in Hrun. vm_compute in Hrun. discriminate Hrun.
Defined.

(* ===================================================================== *)
(** ** Two runs in a row *)




Lemma convert_all_cons (self : converter) (ffmpeg : encoder)
    (c : Path * json * json) (rest : list (Path * json * json)) (w : world) :
  convert_all self ffmpeg (c :: rest) w
  = match convert_video self ffmpeg c w with
    | (Val r, w1) =>
        match convert_all self ffmpeg rest w1 with
        | (Val rs, w2) => (Val (r :: rs), w2)
        | (Exc e, w2) => (Exc e, w2)
        end
    | (Exc e, w1) => (Exc e, w1)
    end.
Proof.
  cbn [convert_all]. rewrite bind_run.
  destruct (convert_video self ffmpeg c w) as [[r | e] w1]; [| done].
  rewrite bind_run.
  by destruct (convert_all self ffmpeg rest w1) as [[rs | e] w2].
Qed.


(** A scan leaves the files alone and neither adds nor removes a mark
    [converted]. *)
Lemma scan_loop_frame (entries : list Path) :
  forall (v : scan_vars) (w : world),
    fs (scan_loop entries v w).2 = fs w /\
    forall k, state (scan_loop entries v w).2 !! k = Some "converted"
              <-> state w !! k = Some "converted".
Proof.
  induction entries as [| p rest IH]; intros v w; [done |].
  rewrite scan_loop_cons.
  pose proof (scan_file_effect p v w) as Heff.
  destruct (scan_effect_fs _ _ _ Heff) as [Hfs _].
  pose proof (fun k => scan_effect_converted _ _ _ k Heff) as Hconv.
  destruct (scan_file p v w) as [[v1 | e] w1]; cbn in *; [| done].
  destruct (IH v1 w1) as [Hfs2 Hconv2]. split; [congruence |].
  intros k. by rewrite Hconv2.
Qed.

Lemma marked_converted_ext (s1 s2 : gmap string string) (p : Path) :
  (forall k, s1 !! k = Some "converted" <-> s2 !! k = Some "converted") ->
  marked_converted s1 p = marked_converted s2 p.
Proof. intros H. unfold marked_converted. by apply bool_decide_ext. Qed.


(** A scan that completes has queued every eligible, unconverted file that
    its comparisons do not skip. *)
Lemma scan_loop_classified (entries : list Path) :
  forall (v v' : scan_vars) (w w' : world),
    scan_loop entries v w = (Val v', w') ->
    (forall c, c ∈ files_to_convert v -> c ∈ files_to_convert v') /\
    forall p, p ∈ entries ->
      eligible (fs w) p = true ->
      marked_converted (state w) p = false ->
      match probe_contract (ffprobe_answer w p) with
      | None => True
      | Some (width, height) =>
          decide_resolution (is_3gp p) width height = DSkip
          \/ (p, width, height) ∈ files_to_convert v'
      end.
Proof.
  induction entries as [| p rest IH]; intros v v' w w' Hrun.
  - injection Hrun as <- <-. split; [done |].
    intros p Hin. by apply not_elem_of_nil in Hin.
  - rewrite scan_loop_cons in Hrun.
    pose proof (scan_file_effect p v w) as Heff.
    destruct (scan_effect_fs _ _ _ Heff) as [Hfs _].
    pose proof (fun k => scan_effect_converted _ _ _ k Heff) as Hconv.
    pose proof (scan_file_run p v w) as Hcases.
    destruct (scan_file p v w) as [[v1 | e] w1] eqn:Hstep; cbn in *; [| done].
    destruct (IH _ _ _ _ Hrun) as [Hmono Hrest].
    assert (forall c, c ∈ files_to_convert v -> c ∈ files_to_convert v1) as Hm1.
    { intros c Hc.
      destruct (scan_file_worklist p v v1 w) as [-> | (wd & ht & -> & _)];
        [by rewrite Hstep | done | apply elem_of_app; by left]. }
    split; [by auto |].
    intros q [-> | Hin]%elem_of_cons Hel Hmark.
    + unfold scan_file_cases in Hcases. rewrite Hel, Hmark in Hcases.
      cbn [negb] in Hcases.
      destruct (probe_contract (ffprobe_answer w p)) as [[wd ht] |]; [| done].
      destruct (decide_resolution (is_3gp p) wd ht); [by left | | done].
      right. injection Hcases as -> _. apply Hmono.
      apply elem_of_app. right. apply list_elem_of_here.
    + specialize (Hrest q Hin). unfold ffprobe_answer in *.
      rewrite Hfs, (marked_converted_ext _ _ q Hconv) in Hrest. by apply Hrest.
Qed.


Lemma run_cases (self : converter) (ffmpeg : encoder)
    (listing : list (list string)) (w : world) :
  run self ffmpeg listing w
  = match scan_videos self listing w with
    | (Val files, w1) =>
        match files with
        | [] => (Val None, w1)
        | _ :: _ =>
            if dry_run self then (Val None, w1)
            else match convert_all self ffmpeg files w1 with
                 | (Val rs, w2) => (Val (Some rs), w2)
                 | (Exc e, w2) => (Exc e, w2)
                 end
        end
    | (Exc e, w1) => (Exc e, w1)
    end.
Proof.
  unfold run. rewrite bind_run.
  destruct (scan_videos self listing w) as [[[| c files] | e] w1]; try done.
  destruct (dry_run self); [done |]. rewrite bind_run.
  by destruct (convert_all self ffmpeg (c :: files) w1) as [[rs | e] w2].
Qed.






(* ===================================================================== *)
(** ** Jobs: results, frame and late failures *)

Lemma convert_try_name (self : converter) (ffmpeg : encoder) (p : Path)
    (w : world) :
  match convert_try self ffmpeg p w with
  | (Val r, _) => message_name r.2 = PathLib.name p
  | (Exc _, _) => True
  end.
Proof.
  unfold convert_try, run_ffmpeg. unfold_os. unfold_monad. cbn.
  repeat (case_match; simplify_eq/=); done.
Qed.

(** X1.  A job never raises: whatever the encoder does and whatever
    fails in its [try] block, [convert_video] returns a result whose message
    names the file of its candidate, and the status it returns is the one it
    has written for the file: [success] with [converted], [error] with
    [failed]. *)
Theorem convert_video_returns (self : converter) (ffmpeg : encoder)
    (p : Path) (ow oh : json) (w : world) :
  exists (r : status * message) (w' : world),
    convert_video self ffmpeg (p, ow, oh) w = (Val r, w') /\
    message_name r.2 = PathLib.name p /\
    (r.1 = success /\ state w' !! state_key p = Some "converted"
     \/ r.1 = error /\ state w' !! state_key p = Some "failed").
Proof.
  destruct (convert_video_shape self ffmpeg p ow oh w)
    as (r & st & evs & w' & Hrun & _ & _ & Hst & _ & Hcase).
  exists r, w'. split; [done |]. split.
  - unfold convert_video, try_except in Hrun.
    pose proof (convert_try_name self ffmpeg p w) as Hname.
    destruct (convert_try self ffmpeg p w) as [[r1 | e] w1].
    + by injection Hrun as <- _.
    + rewrite convert_except_run in Hrun. by injection Hrun as <- _.
  - rewrite Hst, lookup_insert_eq.
    destruct Hcase as [[? ->] | [? ->]]; [by left | by right].
Qed.

Lemma convert_try_frame (self : converter) (ffmpeg : encoder) (p : Path)
    (w : world) (q : Path) :
  q <> temp_output p -> q <> final_output p -> q <> p ->
  fs (convert_try self ffmpeg p w).2 !! q = fs w !! q.
Proof.
  intros Ht Hf Hp.
  unfold convert_try, run_ffmpeg. unfold_os. unfold_monad. cbn.
  repeat (case_match; simplify_eq/=); simplify_map_eq; done.
Qed.

(** X2.  A job touches no file but its source, its temporary output and its
    final output: every other path holds after the job what it held before,
    whether the job succeeds or fails. *)
Theorem convert_video_frame (self : converter) (ffmpeg : encoder)
    (p : Path) (ow oh : json) (w : world) (q : Path) :
  q <> p -> q <> temp_output p -> q <> final_output p ->
  fs (convert_video self ffmpeg (p, ow, oh) w).2 !! q = fs w !! q.
Proof.
  intros Hp Ht Hf. unfold convert_video, try_except.
  pose proof (convert_try_frame self ffmpeg p w q Ht Hf Hp) as H.
  destruct (convert_try self ffmpeg p w) as [[r | e] w1]; [done |].
  rewrite convert_except_run. cbn in *. by rewrite lookup_delete_ne.
Qed.

Lemma convert_video_frame_witness :
  fs (convert_video Sample.delete_originals Sample.good_encoder
        (Sample.big_mp4, JInt 640, JInt 480) Sample.start).2 !! Sample.small_avi
  = Some (Sample.video 120 90 3000).
Proof.
  rewrite (convert_video_frame Sample.delete_originals Sample.good_encoder
             Sample.big_mp4 (JInt 640) (JInt 480) Sample.start Sample.small_avi);
    [reflexivity | by vm_compute ..].
Defined.

Lemma convert_try_empty_source (self : converter) (ffmpeg : encoder) (p : Path)
    (w : world) (out : option json) (x src : file) :
  enc_proc (ffmpeg (fs w) p (temp_output p)) = ProcCompleted 0 out ->
  encoded ffmpeg p (temp_output p) (fs w) !! temp_output p = Some x ->
  (1024 <= f_size x)%N ->
  fs w !! p = Some src ->
  f_size src = 0%N ->
  final_output p <> p ->
  convert_try self ffmpeg p w
  = (Exc ZeroDivisionError,
     MkWorld (moved ffmpeg p x (fs w)) (state w) (disk w)
             (trace w
                ++ [EvEncode p (temp_output p)]
                ++ (if bool_decide (is_Some (fs w !! final_output p))
                    then [EvUnlink (final_output p)] else [])
                ++ [EvRename (temp_output p) (final_output p)])).
Proof.
  intros Hproc Hx Hsz Hsrc Hzero Hne.
  pose proof (temp_output_fresh p) as Htp.
  pose proof (temp_output_not_final p) as Htf.
  assert (moved ffmpeg p x (fs w) !! p = Some src) as Hp.
  { unfold moved.
    by rewrite lookup_insert_ne, !lookup_delete_ne, encoded_other. }
  assert (moved ffmpeg p x (fs w) !! final_output p = Some x) as Hf
    by apply lookup_insert_eq.
  assert (encoded ffmpeg p (temp_output p) (fs w) !! final_output p
          = fs w !! final_output p) as Hfin by (by apply encoded_other).
  unfold convert_try.
  rewrite bind_run, run_ffmpeg_run, Hproc. cbn [Z.eqb negb].
  rewrite bind_run, path_exists_run. world_simpl. rewrite Hx.
  rewrite bool_decide_true by eauto. cbn [negb].
  rewrite bind_run, (stat_size_run _ x) by done.
  assert ((f_size x <? 1024)%N = false) as -> by (apply N.ltb_ge; lia).
  rewrite bind_run, path_exists_run. world_simpl. rewrite Hfin.
  destruct (fs w !! final_output p) as [y |] eqn:Hy.
  - rewrite bool_decide_true by eauto.
    rewrite bind_run, (unlink_run _ y) by (world_simpl; congruence).
    world_simpl.
    rewrite bind_run, (rename_run _ _ x)
      by (world_simpl; rewrite lookup_delete_ne; done).
    world_simpl. fold (moved ffmpeg p x (fs w)).
    rewrite bind_run, (stat_size_run _ src) by done.
    rewrite bind_run, (stat_size_run _ x) by done.
    rewrite bind_run. unfold lift, savings. rewrite Hzero. cbn.
    by rewrite <- !app_assoc.
  - rewrite bool_decide_false by (by intros [? ?]).
    rewrite bind_run, ret_run.
    rewrite bind_run, (rename_run _ _ x) by done.
    world_simpl.
    replace (<[final_output p:=x]>
               (delete (temp_output p) (encoded ffmpeg p (temp_output p) (fs w))))
      with (moved ffmpeg p x (fs w))
      by (unfold moved; rewrite (delete_id _ (final_output p)); congruence).
    rewrite bind_run, (stat_size_run _ src) by done.
    rewrite bind_run, (stat_size_run _ x) by done.
    rewrite bind_run. unfold lift, savings. rewrite Hzero. cbn.
    by rewrite <- !app_assoc.
Qed.

(** X3.  The savings are computed after the output has been moved: for an
    empty source on which the encoder succeeds all the same, the division
    raises, the job returns an error and marks the file [failed], although
    the converted file is by then at the final path, in place of what was
    there; the source is kept. *)
Theorem convert_video_empty_source (self : converter) (ffmpeg : encoder)
    (p : Path) (ow oh : json) (w : world) (out : option json) (x src : file) :
  enc_proc (ffmpeg (fs w) p (temp_output p)) = ProcCompleted 0 out ->
  encoded ffmpeg p (temp_output p) (fs w) !! temp_output p = Some x ->
  (1024 <= f_size x)%N ->
  fs w !! p = Some src ->
  f_size src = 0%N ->
  final_output p <> p ->
  exists w',
    convert_video self ffmpeg (p, ow, oh) w
    = (Val (error, MsgFailed (PathLib.name p) ZeroDivisionError), w') /\
    fs w' !! final_output p = Some x /\
    fs w' !! temp_output p = None /\
    fs w' !! p = Some src /\
    state w' = <[state_key p := "failed"]> (state w) /\
    disk w' = state w'.
Proof.
  intros Hproc Hx Hsz Hsrc Hzero Hne.
  pose proof (temp_output_fresh p) as Htp.
  pose proof (temp_output_not_final p) as Htf.
  unfold convert_video, try_except.
  rewrite (convert_try_empty_source self ffmpeg p w out x src) by done.
  rewrite convert_except_run. eexists. split; [done |]. world_simpl.
  unfold moved. repeat split.
  - by rewrite lookup_delete_ne, lookup_insert_eq.
  - apply lookup_delete_eq.
  - by rewrite lookup_delete_ne, lookup_insert_ne, !lookup_delete_ne,
      encoded_other.
Qed.

Lemma convert_video_empty_source_witness :
  exists w',
    convert_video Sample.keep_them Sample.good_encoder
      (Odd.empty_mp4, JInt 640, JInt 480) Odd.start
    = (Val (error, MsgFailed "empty.mp4" ZeroDivisionError), w') /\
    fs w' !! final_output Odd.empty_mp4 = Some (Sample.video 176 144 2048).
Proof.
  destruct (convert_video_empty_source Sample.keep_them Sample.good_encoder
              Odd.empty_mp4 (JInt 640) (JInt 480) Odd.start None
              (Sample.video 176 144 2048) (Sample.video 640 480 0))
    as (w' & Hrun & Hfinal & _); try reflexivity.
  - cbn. lia.
  - by vm_compute.
  - exists w'. split; [exact Hrun | exact Hfinal].
Defined.

(* ===================================================================== *)
(** ** The scan: worklist, counters, crashes *)

Lemma scan_loop_queued (entries : list Path) :
  forall (v v' : scan_vars) (w w' : world),
    scan_loop entries v w = (Val v', w') ->
    exists added,
      files_to_convert v' = files_to_convert v ++ added /\
      (map (fun c => c.1.1) added) `sublist_of` entries /\
      forall p width height, (p, width, height) ∈ added ->
        eligible (fs w) p = true /\
        marked_converted (state w) p = false /\
        probe_contract (ffprobe_answer w p) = Some (width, height) /\
        decide_resolution (is_3gp p) width height = DQueue.
Proof.
  induction entries as [| p rest IH]; intros v v' w w' Hrun.
  - injection Hrun as <- <-. exists []. rewrite app_nil_r.
    split; [done |]. split; [constructor |].
    intros q a b Hin. by apply not_elem_of_nil in Hin.
  - rewrite scan_loop_cons in Hrun.
    pose proof (scan_file_effect p v w) as Heff.
    destruct (scan_effect_fs _ _ _ Heff) as [Hfs _].
    pose proof (fun k => scan_effect_converted _ _ _ k Heff) as Hconv.
    destruct (scan_file p v w) as [[v1 | e] w1] eqn:Hstep; cbn in *; [| done].
    destruct (IH _ _ _ _ Hrun) as (added & Hfiles & Hsub & Hprops).
    assert (forall q a b, (q, a, b) ∈ added ->
              eligible (fs w) q = true /\
              marked_converted (state w) q = false /\
              probe_contract (ffprobe_answer w q) = Some (a, b) /\
              decide_resolution (is_3gp q) a b = DQueue) as Hprops'.
    { intros q a b Hin. specialize (Hprops q a b Hin).
      unfold ffprobe_answer in *.
      by rewrite Hfs, (marked_converted_ext _ _ q Hconv) in Hprops. }
    destruct (scan_file_worklist p v v1 w) as [Heq | (wd & ht & Heq & Hq)];
      [by rewrite Hstep | |].
    + exists added. rewrite Hfiles, Heq.
      split; [done |]. split; [by apply sublist_cons | done].
    + exists ((p, wd, ht) :: added). rewrite Hfiles, Heq, <- app_assoc.
      split; [done |]. split; [by apply sublist_skip |].
      intros q a b [[= -> -> ->] | Hin]%elem_of_cons; [done | by auto].
Qed.

(** X4.  The worklist of a scan that completes holds exactly the listed
    files that are regular, with a supported extension and no temporary
    prefix, not marked [converted], and that the comparisons on the probed
    resolution queue, each with that resolution; they come in the order of
    the listing. *)
Theorem scan_entries_worklist (entries : list Path) (w w' : world)
    (files : list (Path * json * json)) :
  scan_entries entries w = (Val files, w') ->
  (forall p width height,
      (p, width, height) ∈ files <->
      p ∈ entries /\
      eligible (fs w) p = true /\
      marked_converted (state w) p = false /\
      probe_contract (ffprobe_answer w p) = Some (width, height) /\
      decide_resolution (is_3gp p) width height = DQueue) /\
  (map (fun c => c.1.1) files) `sublist_of` entries.
Proof.
  rewrite scan_entries_run.
  destruct (scan_loop entries (MkScan [] 0 0) w) as [[v | e] w1] eqn:Hscan;
    [| done].
  intros [= <- <-].
  destruct (scan_loop_queued _ _ _ _ _ Hscan) as (added & Hfiles & Hsub & Hprops).
  destruct (scan_loop_classified _ _ _ _ _ Hscan) as [_ Hclass].
  cbn in Hfiles. rewrite Hfiles. split; [| done].
  intros p width height. split.
  - intros Hin. split; [| by apply Hprops].
    eapply elem_of_sublist; [| exact Hsub].
    apply list_elem_of_fmap. by exists (p, width, height).
  - intros (Hin & Hel & Hmark & Hprobe & Hdec).
    specialize (Hclass p Hin Hel Hmark). rewrite Hprobe in Hclass.
    destruct Hclass as [Hskip | Hq]; [congruence | by rewrite <- Hfiles].
Qed.

Lemma scan_entries_worklist_witness :
  exists w',
    scan_entries [Sample.big_mp4; Sample.small_avi] Sample.start
    = (Val [(Sample.big_mp4, JInt 640, JInt 480)], w').
Proof.
  destruct (scan_entries [Sample.big_mp4; Sample.small_avi] Sample.start)
    as [[files | e] w'] eqn:Hrun;
    [| apply (f_equal fst) in Hrun; vm_compute in Hrun; discriminate Hrun].
  destruct (scan_entries_worklist _ _ _ _ Hrun) as [_ Hsub].
  exists w'. apply (f_equal fst) in Hrun. vm_compute in Hrun.
  injection Hrun as <-. done.
Defined.

Lemma scan_file_count (p : Path) (v v1 : scan_vars) (w : world) :
  (scan_file p v w).1 = Val v1 ->
  (skipped v1 + already_done v1 + length (files_to_convert v1)
   = skipped v + already_done v + length (files_to_convert v)
     + (if eligible (fs w) p then 1 else 0))%nat.
Proof.
  rewrite scan_file_run. unfold scan_file_cases.
  destruct (eligible (fs w) p); cbn [negb]; [| intros [= <-]; lia].
  destruct (marked_converted (state w) p); [intros [= <-]; cbn; lia |].
  destruct (probe_contract _) as [[wd ht] |]; [| intros [= <-]; cbn; lia].
  destruct (decide_resolution _ _ _); cbn; intros [= <-]; cbn;
    rewrite ?length_app; cbn; lia.
Qed.

(** X5.  The three counts of a scan that completes, files skipped, files
    already done and files queued, add up to the number of listed entries
    that pass the filters (regular file, supported extension, no temporary
    prefix): each such entry is counted once. *)
Theorem scan_loop_counts (entries : list Path) (w w' : world) (v' : scan_vars) :
  scan_loop entries (MkScan [] 0 0) w = (Val v', w') ->
  (skipped v' + already_done v' + length (files_to_convert v')
   = length (List.filter (eligible (fs w)) entries))%nat.
Proof.
  assert (forall v, scan_loop entries v w = (Val v', w') ->
            (skipped v' + already_done v' + length (files_to_convert v')
             = skipped v + already_done v + length (files_to_convert v)
               + length (List.filter (eligible (fs w)) entries))%nat) as H.
  { revert w. induction entries as [| p rest IH]; intros w v Hrun.
    - injection Hrun as <- <-. cbn. lia.
    - rewrite scan_loop_cons in Hrun.
      pose proof (scan_file_effect p v w) as Heff.
      destruct (scan_effect_fs _ _ _ Heff) as [Hfs _].
      pose proof (fun v1 => scan_file_count p v v1 w) as Hcount.
      destruct (scan_file p v w) as [[v1 | e] w1]; cbn in *; [| done].
      specialize (Hcount v1 eq_refl). specialize (IH w1 v1 Hrun).
      rewrite Hfs in IH.
      destruct (eligible (fs w) p); cbn; lia. }
  intros Hrun. specialize (H _ Hrun). cbn in H. lia.
Qed.

Lemma scan_loop_counts_witness :
  exists v' w',
    scan_loop [Sample.big_mp4; Sample.small_avi; Sample.root]
      (MkScan [] 0 0) Sample.start = (Val v', w') /\
    (skipped v' + already_done v' + length (files_to_convert v') = 2)%nat.
Proof.
  destruct (scan_loop [Sample.big_mp4; Sample.small_avi; Sample.root]
              (MkScan [] 0 0) Sample.start) as [[v' | e] w'] eqn:Hrun;
    [| apply (f_equal fst) in Hrun; vm_compute in Hrun; discriminate Hrun].
  exists v', w'. split; [reflexivity |].
  rewrite (scan_loop_counts _ _ _ _ Hrun). by vm_compute.
Defined.

Lemma gt_int_raises (x : json) (n : Z) (e : exn) :
  Py.gt_int x n = Exc e -> e = TypeError.
Proof. destruct x as [| | | [] | | |]; cbn; congruence. Qed.

Lemma scan_loop_raises (entries : list Path) :
  forall (v : scan_vars) (w w' : world) (e : exn),
    scan_loop entries v w = (Exc e, w') -> e = TypeError.
Proof.
  induction entries as [| p rest IH]; intros v w w' e Hrun; [done |].
  rewrite scan_loop_cons, scan_file_run in Hrun.
  destruct (scan_file_cases p v w) as [[v1 | e1] w1] eqn:Hstep; [by eauto |].
  injection Hrun as <- _. unfold scan_file_cases in Hstep.
  repeat case_match; simplify_eq.
  unfold decide_resolution in *.
  repeat case_match; simplify_eq; by eapply gt_int_raises.
Qed.

(** X6.  A first stream that has no width makes the comparison of the scan
    raise [TypeError] on an eligible, unconverted file; a scan can only raise
    that, and a scan that raises saves nothing: the state file is as it was,
    and the marks of the files seen so far stay in memory. *)
Theorem scan_raises_on_missing_width (p : Path) (v : scan_vars) (w : world)
    (stream : list (string * json)) :
  eligible (fs w) p = true ->
  state w !! state_key p <> Some "converted" ->
  classify_probe (ffprobe_answer w p) = FirstStream stream ->
  Py.dict_get "width" stream = None ->
  scan_file p v w = (Exc TypeError, logged w [EvProbe p]) /\
  forall entries e w',
    scan_entries entries w = (Exc e, w') ->
    e = TypeError /\ disk w' = disk w /\ fs w' = fs w /\
    exists evs, trace w' = trace w ++ evs /\ saves evs = 0%nat.
Proof.
  intros Hel Hst Hcase Hwidth. split.
  - rewrite scan_file_run. unfold scan_file_cases, marked_converted.
    rewrite Hel, bool_decide_false by done. cbn [negb].
    unfold probe_contract. rewrite Hcase, Hwidth. cbn.
    unfold decide_resolution. cbn. by rewrite andb_false_r.
  - intros entries e w'. rewrite scan_entries_run.
    destruct (scan_loop_trace entries (MkScan [] 0 0) w)
      as (evs & Htr & Hevs & Hfs & Hdisk).
    pose proof (scan_loop_raises entries (MkScan [] 0 0) w) as Hexn.
    destruct (scan_loop entries (MkScan [] 0 0) w) as [[v1 | e1] w1];
      [done |].
    intros [= <- <-]. cbn in *. repeat split; [by eapply Hexn | done | done |].
    exists evs. split; [done |]. clear Htr.
    induction Hevs as [| ev evs' (q & _ & [-> | ->]) _ IH]; done.
Qed.

Lemma scan_raises_on_missing_width_witness :
  scan_file Odd.strange_mkv (MkScan [] 0 0) Odd.start
  = (Exc TypeError, logged Odd.start [EvProbe Odd.strange_mkv]).
Proof.
  assert (state Odd.start !! state_key Odd.strange_mkv <> Some "converted")
    as Hst by (by vm_compute).
  assert (eligible (fs Odd.start) Odd.strange_mkv = true) as Hel
    by (by vm_compute).
  assert (classify_probe (ffprobe_answer Odd.start Odd.strange_mkv)
          = FirstStream []) as Hcase by (by vm_compute).
  exact (proj1 (scan_raises_on_missing_width Odd.strange_mkv (MkScan [] 0 0)
                  Odd.start [] Hel Hst Hcase eq_refl)).
Defined.

Lemma startswith_temp (s : string) : Str.startswith ("temp_" +:+ s) "temp_" = true.
Proof.
  unfold Str.startswith. rewrite !str_app_cons. cbn. by destruct s.
Qed.

(** X7.  The temporary output of a job is invisible to the scanner: whatever
    the file it would be written for, its name starts with the temporary
    prefix, and a turn of the loop on it neither probes nor queues nor marks
    anything. *)
Theorem scan_file_temp_output (p : Path) (v : scan_vars) (w : world) :
  Str.startswith (PathLib.name (temp_output p)) "temp_" = true /\
  scan_file (temp_output p) v w = (Val v, w).
Proof.
  assert (Str.startswith (PathLib.name (temp_output p)) "temp_" = true) as H.
  { unfold temp_output. rewrite name_sibling. apply startswith_temp. }
  split; [done |].
  rewrite scan_file_run. unfold scan_file_cases, eligible.
  by rewrite H, andb_false_r.
Qed.

(** X8.  A dry run converts nothing: it returns no results, leaves every
    file as it is, and runs neither the encoder nor an unlink nor a rename;
    all it does is probe, mark skipped files and save. *)
Theorem run_dry (self : converter) (ffmpeg : encoder)
    (listing : list (list string)) (w : world) :
  dry_run self = true ->
  fs (run self ffmpeg listing w).2 = fs w /\
  (forall res, (run self ffmpeg listing w).1 = Val res -> res = None) /\
  exists evs,
    trace (run self ffmpeg listing w).2 = trace w ++ evs /\
    Forall (fun ev => file_event ev = false) evs.
Proof.
  intros Hdry. rewrite run_cases. unfold scan_videos.
  rewrite scan_entries_run.
  set (entries := PathLib.rglob (folder_path self) listing).
  destruct (scan_loop_trace entries (MkScan [] 0 0) w)
    as (evs & Htr & Hevs & Hfs & _).
  assert (Forall (fun ev => file_event ev = false) evs) as Hquiet.
  { eapply Forall_impl; [exact Hevs |]. by intros ev (q & _ & [-> | ->]). }
  destruct (scan_loop entries (MkScan [] 0 0) w) as [[v | e] w1]; cbn in *.
  - assert (exists evs',
              trace w1 ++ [EvSave (state w1)] = trace w ++ evs' /\
              Forall (fun ev => file_event ev = false) evs') as Hsaved.
    { exists (evs ++ [EvSave (state w1)]). rewrite Htr, <- app_assoc.
      split; [done |]. apply Forall_app. split; [done |]. by repeat constructor. }
    rewrite Hdry. destruct (files_to_convert v); cbn.
    + repeat split; [done | by intros res [= <-] | done].
    + repeat split; [done | by intros res [= <-] | done].
  - repeat split; [done | done |]. by exists evs.
Qed.

Lemma run_dry_witness :
  fs (run Odd.preview Sample.good_encoder Resume.listing Sample.start).2
  = fs Sample.start /\
  (run Odd.preview Sample.good_encoder Resume.listing Sample.start).1
  = Val None.
Proof.
  destruct (run_dry Odd.preview Sample.good_encoder Resume.listing Sample.start
              eq_refl) as (Hfs & Hres & _).
  split; [exact Hfs |].
  destruct (run Odd.preview Sample.good_encoder Resume.listing Sample.start)
    as [[res | e] w'] eqn:Hrun;
    [| apply (f_equal fst) in Hrun; vm_compute in Hrun; discriminate Hrun].
  cbn in *. by rewrite (Hres res eq_refl).
Defined.

(** X9.  The key of a file is its path in lower case: once a job has
    succeeded for a file, any file whose path differs from it by case only
    counts as converted, and the scanner passes over it without a probe. *)
Theorem converted_key_shared (self : converter) (ffmpeg : encoder)
    (p q : Path) (ow oh : json) (w w' : world) (r : status * message)
    (v : scan_vars) :
  Str.lower (PathLib.str q) = Str.lower (PathLib.str p) ->
  convert_video self ffmpeg (p, ow, oh) w = (Val r, w') ->
  r.1 = success ->
  state w' !! state_key q = Some "converted" /\
  exists v', scan_file q v w' = (Val v', w') /\
             files_to_convert v' = files_to_convert v.
Proof.
  intros Hkey Hrun Hr.
  destruct (convert_video_shape self ffmpeg p ow oh w)
    as (r0 & st & evs & w0 & Hrun0 & _ & _ & Hst & _ & Hcase).
  rewrite Hrun in Hrun0. injection Hrun0 as <- <-.
  destruct Hcase as [[_ ->] | [Herr _]]; [| by rewrite Hr in Herr].
  assert (state w' !! state_key q = Some "converted") as Hq.
  { unfold state_key. rewrite Hkey, Hst. apply lookup_insert_eq. }
  split; [done | by apply scan_file_converted].
Qed.

Lemma converted_key_shared_witness :
  exists (r : status * message) (w' : world),
    convert_video Sample.keep_them Sample.good_encoder
      (Collide.upper_mp4, JInt 640, JInt 480) Collide.start = (Val r, w') /\
    is_Some (fs w' !! Collide.lower_mp4) /\
    scan_file Collide.lower_mp4 (MkScan [] 0 0) w' = (Val (MkScan [] 0 1), w').
Proof.
  destruct (convert_video Sample.keep_them Sample.good_encoder
              (Collide.upper_mp4, JInt 640, JInt 480) Collide.start)
    as [[r | e] w'] eqn:Hrun;
    [| apply (f_equal fst) in Hrun; vm_compute in Hrun; discriminate Hrun].
  assert (r.1 = success) as Hr.
  { apply (f_equal fst) in Hrun. vm_compute in Hrun. by injection Hrun as <-. }
  assert (fs w' !! Collide.lower_mp4 = Some (Sample.video 320 240 40000)) as Hf.
  { assert (w' = (convert_video Sample.keep_them Sample.good_encoder
                      (Collide.upper_mp4, JInt 640, JInt 480)
                      Collide.start).2) as Hw by (by rewrite Hrun).
    rewrite Hw. by vm_compute. }
  destruct (converted_key_shared Sample.keep_them Sample.good_encoder
              Collide.upper_mp4 Collide.lower_mp4 (JInt 640) (JInt 480)
              Collide.start w' r (MkScan [] 0 0) eq_refl Hrun Hr)
    as (Hq & v' & Hscan & Hfiles).
  exists r, w'. split; [reflexivity |]. split; [by eexists |].
  rewrite scan_file_run. unfold scan_file_cases, marked_converted, eligible.
  rewrite Hf, bool_decide_true by done. by rewrite bool_decide_true by eauto.
Defined.

(* ===================================================================== *)
(** ** Output paths *)

(** X11.  The two output paths of a job are in the directory of the source;
    the temporary one is neither the source nor the final one; the final one
    is the source exactly when the suffix of the source is [.3gp], and it is
    its own final path (for a source with a name). *)
Theorem output_paths (p : Path) :
  directory (temp_output p) = directory p /\
  directory (final_output p) = directory p /\
  temp_output p <> p /\
  temp_output p <> final_output p /\
  (final_output p = p <-> PathLib.suffix p = ".3gp") /\
  (PathLib.name p <> "" -> final_output (final_output p) = final_output p).
Proof.
  assert (forall n, directory (PathLib.sibling p n) = directory p) as Hdir.
  { intros n. unfold directory, PathLib.sibling. cbn.
    by rewrite removelast_last. }
  repeat split; try apply Hdir.
  - apply temp_output_fresh.
  - apply temp_output_not_final.
  - intros Heq. apply (f_equal PathLib.name) in Heq.
    rewrite name_final_output in Heq. unfold PathLib.suffix, PathLib.stem in *.
    destruct (decide (PathLib.name p = "")) as [Hn | Hn].
    + rewrite Hn in Heq. by vm_compute in Heq.
    + rewrite <- Heq. apply suffix_of_3gp. by apply stem_nonempty.
  - apply final_output_3gp.
  - intros Hn. apply final_output_3gp. by apply suffix_final_output.
Qed.

(* ===================================================================== *)
(** ** The resume state over a whole run *)

Lemma scan_loop_keys_kept (entries : list Path) :
  forall (v : scan_vars) (w : world) (k : string),
    is_Some (state w !! k) -> is_Some (state (scan_loop entries v w).2 !! k).
Proof.
  induction entries as [| p rest IH]; intros v w k Hk; [done |].
  rewrite scan_loop_cons.
  pose proof (scan_file_effect p v w) as Heff.
  assert (is_Some (state (scan_file p v w).2 !! k)) as Hk1.
  { destruct Heff as [| | Hne]; cbn; [done | done |].
    rewrite lookup_insert. case_decide; [by eexists | done]. }
  destruct (scan_file p v w) as [[v1 | e] w1]; cbn in *; [by apply IH | done].
Qed.

Lemma convert_all_keys_kept (self : converter) (ffmpeg : encoder)
    (files : list (Path * json * json)) :
  forall (w : world) (k : string),
    is_Some (state w !! k) ->
    is_Some (state (convert_all self ffmpeg files w).2 !! k).
Proof.
  induction files as [| [[p ow] oh] rest IH]; intros w k Hk; [done |].
  rewrite convert_all_cons.
  destruct (convert_video_shape self ffmpeg p ow oh w)
    as (r & st & evs & w1 & -> & _ & _ & Hst & _).
  assert (is_Some (state w1 !! k)) as Hk1.
  { rewrite Hst, lookup_insert. case_decide; [by eexists | done]. }
  specialize (IH w1 k Hk1).
  by destruct (convert_all self ffmpeg rest w1) as [[rs | e] w2].
Qed.

Lemma convert_all_saved (self : converter) (ffmpeg : encoder)
    (files : list (Path * json * json)) :
  forall w : world,
    disk w = state w ->
    disk (convert_all self ffmpeg files w).2
    = state (convert_all self ffmpeg files w).2.
Proof.
  induction files as [| [[p ow] oh] rest IH]; intros w Hw; [done |].
  rewrite convert_all_cons.
  destruct (convert_video_shape self ffmpeg p ow oh w)
    as (r & st & evs & w1 & -> & _ & _ & _ & Hdisk & _).
  specialize (IH w1 Hdisk).
  by destruct (convert_all self ffmpeg rest w1) as [[rs | e] w2].
Qed.

(** X12.  A run never removes a key from the resume state: a key that is in
    [self.state] when the run starts is still there when it ends, whether it
    completes or the scan raises. *)
Theorem run_keeps_keys (self : converter) (ffmpeg : encoder)
    (listing : list (list string)) (w : world) (k : string) :
  is_Some (state w !! k) ->
  is_Some (state (run self ffmpeg listing w).2 !! k).
Proof.
  intros Hk. rewrite run_cases. unfold scan_videos. rewrite scan_entries_run.
  set (entries := PathLib.rglob (folder_path self) listing).
  pose proof (scan_loop_keys_kept entries (MkScan [] 0 0) w k Hk) as Hk1.
  destruct (scan_loop entries (MkScan [] 0 0) w) as [[v | e] w1]; [| done].
  cbn in Hk1.
  set (w1' := MkWorld (fs w1) (state w1) (state w1)
                      (trace w1 ++ [EvSave (state w1)])).
  destruct (files_to_convert v) as [| c files]; [done |].
  destruct (dry_run self); [done |].
  pose proof (convert_all_keys_kept self ffmpeg (c :: files) w1' k Hk1) as Hk2.
  by destruct (convert_all self ffmpeg (c :: files) w1') as [[rs | e] w2].
Qed.

Lemma run_keeps_keys_witness :
  is_Some (state (run Sample.keep_them Sample.good_encoder Resume.listing
                    Resume.restart).2 !! "/videos/big.mp4").
Proof.
  apply (run_keeps_keys Sample.keep_them Sample.good_encoder Resume.listing
           Resume.restart "/videos/big.mp4").
  exists "converted". by vm_compute.
Defined.

Lemma run_disk (self : converter) (ffmpeg : encoder)
    (listing : list (list string)) (w w' : world)
    (res : option (list (status * message))) :
  run self ffmpeg listing w = (Val res, w') ->
  disk w' = state w'.
Proof.
  rewrite run_cases. unfold scan_videos. rewrite scan_entries_run.
  set (entries := PathLib.rglob (folder_path self) listing).
  destruct (scan_loop entries (MkScan [] 0 0) w) as [[v | e] w1]; [| done].
  set (w1' := MkWorld (fs w1) (state w1) (state w1)
                      (trace w1 ++ [EvSave (state w1)])).
  destruct (files_to_convert v) as [| c files]; [by intros [= _ <-] |].
  destruct (dry_run self); [by intros [= _ <-] |].
  pose proof (convert_all_saved self ffmpeg (c :: files) w1' eq_refl) as Hs.
  destruct (convert_all self ffmpeg (c :: files) w1') as [[rs | e] w2];
    [| done].
  by intros [= _ <-].
Qed.

Lemma restart_saved (w : world) : disk w = state w -> restart w = w.
Proof. destruct w as [f s d t]. unfold restart. cbn. by intros ->. Qed.

(** X13.  When a run with one worker completes, the state file holds the
    resume state as it is in memory, whether files were converted, the run
    was a dry run, or there was nothing to convert; a process started
    afterwards loads exactly that state. *)
Theorem run_saved (self : converter) (ffmpeg : encoder)
    (listing : list (list string)) (w w' : world)
    (res : option (list (status * message))) :
  max_workers self = 1%nat ->
  run self ffmpeg listing w = (Val res, w') ->
  disk w' = state w' /\ state (restart w') = state w'.
Proof.
  intros _ Hrun. apply run_disk in Hrun. split; [done |].
  by rewrite restart_saved.
Qed.

Lemma run_saved_witness :
  exists res w',
    run Single.self Sample.bad_encoder Resume.listing Sample.start
    = (Val res, w') /\
    disk w' = state w'.
Proof.
  destruct (run Single.self Sample.bad_encoder Resume.listing
              Sample.start) as [[res | e] w'] eqn:Hrun;
    [| apply (f_equal fst) in Hrun; vm_compute in Hrun; discriminate Hrun].
  exists res, w'. split; [reflexivity |].
  exact (proj1 (run_saved Single.self Sample.bad_encoder Resume.listing
                  Sample.start w' res eq_refl Hrun)).
Defined.

Lemma convert_video_success_distinct_witness :
  exists (saved : Q) (w' : world),
    convert_video Sample.keep_them Sample.good_encoder
      (Sample.big_mp4, JInt 640, JInt 480) Sample.start
    = (Val (success, MsgConverted "big.mp4" saved true), w') /\
    fs w' !! Sample.big_mp4 = Some (Sample.video 640 480 100000) /\
    fs w' !! final_output Sample.big_mp4 = Some (Sample.video 176 144 2048).
Proof.
  destruct (convert_video_success_distinct Sample.keep_them Sample.good_encoder
              Sample.big_mp4 (JInt 640) (JInt 480) Sample.start None
              (Sample.video 176 144 2048) (Sample.video 640 480 100000))
    as (saved & w' & Hrun & _ & Hfinal & _ & Hsrc & _); try reflexivity.
  - by vm_compute.
  - cbn. lia.
  - exists saved, w'. split; [exact Hrun |]. split; [exact Hsrc | exact Hfinal].
Defined.

(* ===================================================================== *)
(** ** Scanning again *)








Lemma scan_loop_state_frame (entries : list Path) :
  forall (v : scan_vars) (w : world) (k : string),
    state (scan_loop entries v w).2 !! k = state w !! k
    \/ (state (scan_loop entries v w).2 !! k = Some "skipped" /\
        state w !! k <> Some "converted" /\
        exists p, p ∈ entries /\ state_key p = k).
Proof.
  induction entries as [| p rest IH]; intros v w k; [by left |].
  rewrite scan_loop_cons.
  pose proof (scan_file_effect p v w) as Heff.
  pose proof (scan_effect_converted _ _ _ k Heff) as Hconv.
  assert (state (scan_file p v w).2 !! k = state w !! k
          \/ (state (scan_file p v w).2 !! k = Some "skipped" /\
              state w !! k <> Some "converted" /\ state_key p = k)) as Hstep.
  { destruct Heff as [| | Hne]; cbn; [by left | by left |].
    destruct (decide (state_key p = k)) as [<- | Hk].
    - right. by rewrite lookup_insert_eq.
    - left. by rewrite lookup_insert_ne. }
  assert (forall q, q ∈ rest -> q ∈ p :: rest) as Hfurther
    by (intros; by apply list_elem_of_further).
  destruct (scan_file p v w) as [[v1 | e] w1]; cbn in *.
  - destruct (IH v1 w1 k) as [Heq | (Hs & Hnc & q & Hq & Hk)].
    + rewrite Heq. destruct Hstep as [? | (? & ? & ?)]; [by left |].
      right. repeat split; try done. exists p. split; [apply list_elem_of_here | done].
    + right. repeat split; [done | by rewrite <- Hconv | by eauto].
  - destruct Hstep as [? | (? & ? & ?)]; [by left |].
    right. repeat split; try done. exists p. split; [apply list_elem_of_here | done].
Qed.

(** X15.  A scan changes no file, and in the resume state it changes only
    keys of listed files, and only to [skipped]: every key either keeps its
    entry, or is the key of a listed file, was not [converted], and is now
    [skipped]. *)
Theorem scan_entries_frame (entries : list Path) (w : world) (k : string) :
  fs (scan_entries entries w).2 = fs w /\
  (state (scan_entries entries w).2 !! k = state w !! k
   \/ (state (scan_entries entries w).2 !! k = Some "skipped" /\
       state w !! k <> Some "converted" /\
       exists p, p ∈ entries /\ state_key p = k)).
Proof.
  rewrite scan_entries_run.
  destruct (scan_loop_frame entries (MkScan [] 0 0) w) as [Hfs _].
  pose proof (scan_loop_state_frame entries (MkScan [] 0 0) w k) as Hst.
  by destruct (scan_loop entries (MkScan [] 0 0) w) as [[v | e] w1].
Qed.

(* ===================================================================== *)
(** ** A failed job and the next scan *)

(** X16.  A file whose job fails is tried again: after the failure its entry
    is [failed], which the scanner does not take for done, and its source is
    as it was, so that a turn of the scan loop probes it and queues it
    again. *)
Theorem failed_then_queued (self : converter) (ffmpeg : encoder)
    (p : Path) (ow oh width height : json) (w : world) (e : exn)
    (v : scan_vars) :
  job_failure ffmpeg p (fs w) e ->
  eligible (fs w) p = true ->
  probe_contract (ffprobe_answer w p) = Some (width, height) ->
  decide_resolution (is_3gp p) width height = DQueue ->
  let w' := (convert_video self ffmpeg (p, ow, oh) w).2 in
  state w' !! state_key p = Some "failed" /\
  scan_file p v w'
  = (Val (MkScan (files_to_convert v ++ [(p, width, height)])
                 (skipped v) (already_done v)),
     logged w' [EvProbe p]).
Proof.
  intros Hfail Hel Hprobe Hdec.
  apply job_failure_encode_failure in Hfail.
  rewrite (convert_video_failed_run self ffmpeg p ow oh w e Hfail). cbn zeta.
  cbn [snd]. split; [apply lookup_insert_eq |].
  assert (delete (temp_output p) (encoded ffmpeg p (temp_output p) (fs w)) !! p
          = fs w !! p) as Hp.
  { pose proof (temp_output_fresh p).
    by rewrite lookup_delete_ne, encoded_other. }
  rewrite scan_file_run.
  unfold scan_file_cases, eligible, marked_converted, ffprobe_answer in *.
  cbn [fs state]. rewrite Hp, Hel. cbn [negb].
  rewrite lookup_insert_eq, bool_decide_false by done.
  by rewrite Hprobe, Hdec.
Qed.

Lemma failed_then_queued_witness :
  let w' := (convert_video Sample.delete_originals Sample.bad_encoder
               (Sample.big_mp4, JInt 640, JInt 480) Sample.start).2 in
  scan_file Sample.big_mp4 (MkScan [] 0 0) w'
  = (Val (MkScan [(Sample.big_mp4, JInt 640, JInt 480)] 0 0),
     logged w' [EvProbe Sample.big_mp4]).
Proof.
  assert (job_failure Sample.bad_encoder Sample.big_mp4 (fs Sample.start)
            (FFmpegFailed 1)) as Hfail by (by eapply fail_exit_code).
  exact (proj2 (failed_then_queued Sample.delete_originals Sample.bad_encoder
                  Sample.big_mp4 (JInt 640) (JInt 480) (JInt 640) (JInt 480)
                  Sample.start (FFmpegFailed 1) (MkScan [] 0 0)
                  Hfail eq_refl eq_refl eq_refl)).
Defined.

(* ===================================================================== *)
(** ** Running twice *)



